(** * gefsplots: the three GEFS plotting scripts

    A shallow embedding of [plot_sfc_variable.py],
    [plot_entire_atmosphere_variable.py] and [plot_halfdegree_data.py].
    Each script is the same linear pipeline

      [parse_arguments] ; [get_gefs_data] ; [create_plot]

    and every step that is not written in the repository (argparse, pandas,
    fsspec, xarray, monet, matplotlib) is a collaborator.  Collaborators whose
    behaviour the scripts rely on structurally (argparse, the f-string,
    [strftime], look-up by name in a dataset, [.sel]) are modelled; the
    others are fields of the class [Externals] and every call to them is
    recorded in a trace of [event]s. *)

From Stdlib Require Import String Ascii List Bool Arith ZArith QArith Lia.
Import ListNotations.

Close Scope Q_scope.
Local Open Scope string_scope.
Local Open Scope list_scope.
Local Open Scope nat_scope.

(** ** Strings *)

Module Str.

(** [s.startswith(p)] *)
Definition startswith (s p : string) : bool := String.prefix p s.

(** [s.endswith(p)] *)
Definition endswith (s p : string) : bool :=
  String.eqb (substring (String.length s - String.length p) (String.length p) s) p
  && (String.length p <=? String.length s)%nat.

(** [c in s] for a one-character [c] *)
Fixpoint contains (c : ascii) (s : string) : bool :=
  match s with
  | EmptyString => false
  | String a s' => Ascii.eqb a c || contains c s'
  end.

(** [s.split(c, 1)] when [c in s]: the text before the first [c] and the
    text after it. *)
Fixpoint split_once (c : ascii) (s : string) : option (string * string) :=
  match s with
  | EmptyString => None
  | String a s' =>
      if Ascii.eqb a c then Some (EmptyString, s')
      else match split_once c s' with
           | Some (l, r) => Some (String a l, r)
           | None => None
           end
  end.

Definition is_digit (a : ascii) : bool :=
  let n := nat_of_ascii a in ((48 <=? n) && (n <=? 57))%nat.

Fixpoint all (p : ascii -> bool) (s : string) : bool :=
  match s with
  | EmptyString => true
  | String a s' => p a && all p s'
  end.

(** [s[:n]] and [s[n:]] *)
Definition take (n : nat) (s : string) : string := substring 0 n s.
Definition drop (n : nat) (s : string) : string := substring n (String.length s - n) s.

Definition mem (x : string) (l : list string) : bool :=
  existsb (String.eqb x) l.

End Str.

(** ** Calendar dates and [strftime('%Y%m%d')] *)

(** The part of a [pd.Timestamp] that ['%Y%m%d'] reads. *)
Record calendar_date := mkdate { year : nat; month : nat; day : nat }.

(** A calendar date inside the range a [pd.Timestamp] can hold
    (1677-09-21 .. 2262-04-11). *)
Definition timestamp_in_bounds (d : calendar_date) : Prop :=
  1677 <= year d <= 2262 /\ 1 <= month d <= 12 /\ 1 <= day d <= 31.

Definition digit (n : nat) : ascii := ascii_of_nat (48 + n mod 10).

(** Decimal numeral of [n], most significant digit first, no padding. *)
Fixpoint decimal_acc (fuel n : nat) (acc : string) : string :=
  match fuel with
  | O => acc
  | S fuel' =>
      let acc' := String (digit n) acc in
      if (n <? 10)%nat then acc' else decimal_acc fuel' (n / 10) acc'
  end.

Definition decimal (n : nat) : string := decimal_acc (S n) n "".

(** [s.rjust(w, '0')] *)
Fixpoint zeros (k : nat) : string :=
  match k with O => "" | S k' => String "0" (zeros k') end.

Definition zfill (w : nat) (s : string) : string := zeros (w - String.length s) ++ s.

(** [d.strftime('%Y%m%d')]: [%Y] is the year as a decimal number, [%m] and
    [%d] are zero-padded to two digits. *)
Definition strftime_Ymd (d : calendar_date) : string :=
  decimal (year d) ++ zfill 2 (decimal (month d)) ++ zfill 2 (decimal (day d)).

(** ** Failures

    No script catches an exception: whatever is raised aborts the run.  The
    constructors name the raising site. *)
Inductive usage_error :=
| ambiguous_option (arg : string)
| expected_one_argument (flag : string)
| expected_at_least_one_argument (flag : string)
| ignored_explicit_argument (flag : string)
| invalid_value (flag : string) (value : string)
| invalid_choice (flag : string) (value : string)
| unrecognized_arguments (extras : list string).

Inductive exn :=
| HelpExit                              (* -h/--help: usage printed, exit status 0 *)
| InvalidArgument (e : usage_error)     (* parser.error: exit status 2 *)
| InvalidDate                           (* pd.Timestamp(date_str) raised *)
| RemoteNotFound                        (* fsspec.open_local: object absent *)
| TransportError                        (* fsspec.open_local: network failure *)
| DecodeError                           (* xr.open_dataset raised *)
| UnknownVariable (name : string)       (* KeyError from ds[variable] *)
| LevelNotFound                         (* KeyError from .sel(valueOfFirstFixedSurface=..) *)
| RenderError                           (* quick_imshow raised *)
| SaveError.                            (* monet.savefig raised *)

Inductive outcome (A : Type) :=
| Returned (a : A)
| Raised (e : exn).
Arguments Returned {A} a.
Arguments Raised {A} e.

Definition obind {A B} (o : outcome A) (k : A -> outcome B) : outcome B :=
  match o with
  | Returned a => k a
  | Raised e => Raised e
  end.

Declare Scope outcome_scope.
Delimit Scope outcome_scope with outcome.
Notation "x <- c ;; k" := (obind c (fun x => k))
  (at level 61, c at next level, right associativity) : outcome_scope.
Local Open Scope outcome_scope.

(** A Python number as the scripts hold it in [levels]: the default list is
    made of [int]s, values read from the command line went through [float]. *)
Inductive number (F : Type) :=
| PyInt (z : Z)
| PyFloat (f : F).
Arguments PyInt {F} z.
Arguments PyFloat {F} f.

(** What a namespace attribute of an option that takes one value holds: the
    value, or the empty list.  (CPython 3.11 stores the empty list when the
    value glued to the option with [=] is exactly ["--"], see [store]
    below.)  The scripts hand the attribute on as it is, so their functions
    take these. *)
Inductive strval :=
| StrValue (s : string)
| StrEmptyList.

Inductive intval :=
| IntValue (z : Z)
| IntEmptyList.

Coercion StrValue : string >-> strval.
Coercion IntValue : Z >-> intval.
Bind Scope Z_scope with intval.

(** [f"{v}"]: a string is written as it is, the empty list as ["[]"]. *)
Definition fstring (v : strval) : string :=
  match v with
  | StrValue s => s
  | StrEmptyList => "[]"
  end.

(** ** argparse

    [ArgumentParser.parse_args] (CPython 3.11) for the parsers the scripts
    build: the automatic [-h/--help] action plus [add_argument('--dest', ...)]
    store actions with [type=str] (optionally with [choices]), [type=int],
    or [type=float, nargs='+'].  Command-line strings are byte strings read as
    ASCII text. *)
Module argparse.
Section Parser.

Context {F NS : Type}.
Variable float : string -> option F.   (* builtin float(s); None = ValueError *)
Variable int : string -> option Z.     (* builtin int(s); None = ValueError *)

(** One row per [add_argument] call.  [dest] is the option string without
    its leading ["--"]; [setattr] writes the namespace attribute. *)
Inductive Action :=
| HelpAction
| StoreStr (dest : string) (choices : option (list string)) (default : string)
    (setattr : strval -> NS -> NS)
| StoreInt (dest : string) (default : Z) (setattr : intval -> NS -> NS)
| StoreFloats (dest : string) (default : list (number F))
    (setattr : list (number F) -> NS -> NS).

Definition long_option (dest : string) : string := "--" ++ dest.

Definition option_strings (a : Action) : list string :=
  match a with
  | HelpAction => ["-h"; "--help"]
  | StoreStr d _ _ _ => [long_option d]
  | StoreInt d _ _ => [long_option d]
  | StoreFloats d _ _ => [long_option d]
  end.

Variable parser : list Action.

(** [parser._option_string_actions], in insertion order *)
Definition option_string_actions : list (string * Action) :=
  flat_map (fun a => map (fun o => (o, a)) (option_strings a)) parser.

Fixpoint assoc (k : string) (l : list (string * Action)) : option Action :=
  match l with
  | [] => None
  | (o, a) :: l' => if String.eqb o k then Some a else assoc k l'
  end.

(** [_negative_number_matcher]: [^-\d+$|^-\d*\.\d+$]; [$] also matches
    just before a final newline. *)
Definition chomp (s : string) : string :=
  if Str.endswith s (String "010" "") then Str.take (String.length s - 1) s else s.

Definition nonempty (s : string) : bool := negb (String.eqb s "").

Definition negative_number (s : string) : bool :=
  match chomp s with
  | String "-" body =>
      (nonempty body && Str.all Str.is_digit body)
      || match Str.split_once "." body with
         | Some (i, f) => Str.all Str.is_digit i && nonempty f && Str.all Str.is_digit f
         | None => false
         end
  | _ => false
  end.

Definition has_negative_number_optionals : bool :=
  existsb negative_number (map fst option_string_actions).

(** [_get_option_tuples] (with the default [allow_abbrev=True]), called on
    a string of length at least 2 that starts with ['-']. *)
Definition get_option_tuples (arg : string)
  : list (Action * string * option string) :=
  if Str.startswith arg "--" then
    let '(option_prefix, explicit_arg) :=
      match Str.split_once "=" arg with
      | Some (p, e) => (p, Some e)
      | None => (arg, None)
      end in
    flat_map (fun '(o, a) =>
                if Str.startswith o option_prefix
                then [(a, o, explicit_arg)] else [])
             option_string_actions
  else
    let short_option_prefix := Str.take 2 arg in
    let short_explicit_arg := Str.drop 2 arg in
    flat_map (fun '(o, a) =>
                if String.eqb o short_option_prefix
                then [(a, o, Some short_explicit_arg)]
                else if Str.startswith o arg then [(a, o, None)] else [])
             option_string_actions.

(** The pattern letter of one command-line string: ['A'] (an argument),
    ['O'] (an option: its action if known, the option string, the text
    after ['='] if any) or ['-'] (the separator ["--"]). *)
Inductive token :=
| tok_A (arg : string)
| tok_O (action : option Action) (option_string : string)
    (explicit_arg : option string)
| tok_dashdash.

(** [_parse_optional] *)
Definition parse_optional (arg : string) : outcome token :=
  match arg with
  | EmptyString => Returned (tok_A arg)
  | String c _ =>
      if negb (Ascii.eqb c "-") then Returned (tok_A arg)
      else
        match assoc arg option_string_actions with
        | Some a => Returned (tok_O (Some a) arg None)
        | None =>
            if String.length arg =? 1 then Returned (tok_A arg)
            else
              let split :=
                match Str.split_once "=" arg with
                | Some (o, e) =>
                    match assoc o option_string_actions with
                    | Some a => Some (a, o, e)
                    | None => None
                    end
                | None => None
                end in
              match split with
              | Some (a, o, e) => Returned (tok_O (Some a) o (Some e))
              | None =>
                  match get_option_tuples arg with
                  | _ :: _ :: _ =>
                      Raised (InvalidArgument (ambiguous_option arg))
                  | [(a, o, e)] => Returned (tok_O (Some a) o e)
                  | [] =>
                      if negative_number arg
                         && negb has_negative_number_optionals
                      then Returned (tok_A arg)
                      else if Str.contains " " arg then Returned (tok_A arg)
                      else Returned (tok_O None arg None)
                  end
              end
        end
  end.

(** The first loop of [_parse_known_args]: every string up to a ["--"] is
    classified, every string after it is an argument. *)
Fixpoint lex (arg_strings : list string) : outcome (list token) :=
  match arg_strings with
  | [] => Returned []
  | a :: rest =>
      if String.eqb a "--" then Returned (tok_dashdash :: map tok_A rest)
      else
        t <- parse_optional a ;;
        ts <- lex rest ;;
        Returned (t :: ts)
  end.

(** [_get_values] for [type=float, nargs='+']: each string is converted in
    turn, the first failure raises. *)
Fixpoint get_floats (o : string) (args : list string) : outcome (list F) :=
  match args with
  | [] => Returned []
  | v :: rest =>
      match float v with
      | Some f => fs <- get_floats o rest ;; Returned (f :: fs)
      | None => Raised (InvalidArgument (invalid_value o v))
      end
  end.

(** [arg_strings.remove('--')], the first thing [_get_values] does: the
    first string that is exactly ["--"] is dropped. *)
Fixpoint remove_dashdash (arg_strings : list string) : list string :=
  match arg_strings with
  | [] => []
  | a :: rest => if String.eqb a "--" then rest else a :: remove_dashdash rest
  end.

(** [_match_argument] on the strings handed to the option [o], then
    [take_action]: [_get_values] and the store.  [_get_values] drops a
    ["--"], then converts and checks ([_check_value]): one string left for an
    option of one value gives that value; otherwise the value is the list of
    the converted strings, which for an option of one value can only be the
    empty list (after [--dest=--]), with nothing to convert or to check. *)
Definition store (a : Action) (o : string) (args : list string) (n : NS)
  : outcome NS :=
  match a with
  | HelpAction => Raised HelpExit
  | StoreStr _ choices _ setattr =>
      match args with
      | [_] =>
          match remove_dashdash args with
          | [v] =>
              match choices with
              | Some cs =>
                  if Str.mem v cs then Returned (setattr (StrValue v) n)
                  else Raised (InvalidArgument (invalid_choice o v))
              | None => Returned (setattr (StrValue v) n)
              end
          | _ => Returned (setattr StrEmptyList n)
          end
      | _ => Raised (InvalidArgument (expected_one_argument o))
      end
  | StoreInt _ _ setattr =>
      match args with
      | [_] =>
          match remove_dashdash args with
          | [v] =>
              match int v with
              | Some z => Returned (setattr (IntValue z) n)
              | None => Raised (InvalidArgument (invalid_value o v))
              end
          | _ => Returned (setattr IntEmptyList n)
          end
      | _ => Raised (InvalidArgument (expected_one_argument o))
      end
  | StoreFloats _ _ setattr =>
      match args with
      | [] => Raised (InvalidArgument (expected_at_least_one_argument o))
      | _ =>
          fs <- get_floats o (remove_dashdash args) ;;
          Returned (setattr (map PyFloat fs) n)
      end
  end.

(** An explicit argument glued to a help option: [-hh..h] is a cluster of
    help flags, anything else is refused. *)
Definition help_with_explicit (o e : string) : exn :=
  if String.eqb o "-h" && nonempty e && Str.all (Ascii.eqb "h") e
  then HelpExit
  else InvalidArgument (ignored_explicit_argument o).

(** The second loop of [_parse_known_args], as a machine over the tokens.
    [pending] is the option whose arguments are being matched (the group
    of the nargs pattern, [A] or [A+]); [extras] collects what no action
    consumes. *)
Record pstate := mkpstate {
  ns : NS;
  extras : list string;
  pending : option (Action * string * list string)
}.

Definition flush (st : pstate) : outcome pstate :=
  match pending st with
  | None => Returned st
  | Some (a, o, vs) =>
      n <- store a o vs (ns st) ;;
      Returned (mkpstate n (extras st) None)
  end.

Definition step (st : pstate) (t : token) : outcome pstate :=
  match t with
  | tok_A s =>
      match pending st with
      | Some (StoreFloats _ _ _ as a, o, vs) =>
          Returned (mkpstate (ns st) (extras st) (Some (a, o, vs ++ [s])))
      | Some (a, o, vs) =>
          n <- store a o (vs ++ [s]) (ns st) ;;
          Returned (mkpstate n (extras st) None)
      | None => Returned (mkpstate (ns st) (extras st ++ [s]) None)
      end
  | tok_dashdash =>
      st' <- flush st ;;
      Returned (mkpstate (ns st') (extras st' ++ ["--"]) None)
  | tok_O None o _ =>
      st' <- flush st ;;
      Returned (mkpstate (ns st') (extras st' ++ [o]) None)
  | tok_O (Some HelpAction) o (Some e) =>
      st' <- flush st ;;
      Raised (help_with_explicit o e)
  | tok_O (Some a) o (Some e) =>
      st' <- flush st ;;
      n <- store a o [e] (ns st') ;;
      Returned (mkpstate n (extras st') None)
  | tok_O (Some HelpAction) o None =>
      st' <- flush st ;;
      Raised HelpExit
  | tok_O (Some a) o None =>
      st' <- flush st ;;
      Returned (mkpstate (ns st') (extras st') (Some (a, o, [])))
  end.

Fixpoint steps (ts : list token) (st : pstate) : outcome pstate :=
  match ts with
  | [] => Returned st
  | t :: ts' => st' <- step st t ;; steps ts' st'
  end.

(** At the end of the command line the last option takes what it has. *)
Definition run (ts : list token) (st : pstate) : outcome pstate :=
  st' <- steps ts st ;; flush st'.

(** [setattr(namespace, action.dest, action.default)] for every action *)
Definition set_default (n : NS) (a : Action) : NS :=
  match a with
  | HelpAction => n
  | StoreStr _ _ d setattr => setattr d n
  | StoreInt _ d setattr => setattr d n
  | StoreFloats _ d setattr => setattr d n
  end.

Definition parse_known_args (arg_strings : list string) (namespace : NS)
  : outcome (NS * list string) :=
  let namespace := fold_left set_default parser namespace in
  ts <- lex arg_strings ;;
  st <- run ts (mkpstate namespace [] None) ;;
  Returned (ns st, extras st).

Definition parse_args (arg_strings : list string) (namespace : NS)
  : outcome NS :=
  r <- parse_known_args arg_strings namespace ;;
  match snd r with
  | [] => Returned (fst r)
  | argv => Raised (InvalidArgument (unrecognized_arguments argv))
  end.

End Parser.
End argparse.

(** ** Datasets

    A decoded GRIB2 file is a mapping from variable names to labelled arrays,
    together with the sizes of its dimensions.  An array is either a field
    without the [valueOfFirstFixedSurface] dimension or a stack of such
    fields along that coordinate; [grid] is the payload over the other
    dimensions, which no script inspects. *)
Inductive DataArray (grid : Type) :=
| Field2D (values : grid)
| Field3D (surfaces : list (Q * grid)).
Arguments Field2D {grid} values.
Arguments Field3D {grid} surfaces.

(** [variables] is the variable mapping [ds.variables] (data variables and
    coordinate variables), [sizes] is [ds.sizes] (every dimension with its
    length). *)
Record Dataset (grid : Type) := mkDataset {
  variables : list (string * DataArray grid);
  sizes : list (string * nat)
}.
Arguments mkDataset {grid}.
Arguments variables {grid}.
Arguments sizes {grid}.

(** [mapping[key]] for a mapping held as a list of items; [None] is
    [KeyError]. *)
Fixpoint lookup {A} (key : string) (items : list (string * A)) : option A :=
  match items with
  | [] => None
  | (name, a) :: items' =>
      if String.eqb name key then Some a else lookup key items'
  end.

(** [da.sel(valueOfFirstFixedSurface=model_level)] with the default
    [method=None]: label look-up by equality.  No label equal to the request
    is a [KeyError]; one match drops the dimension; a repeated label keeps
    it.  An array without the dimension cannot be indexed by it.  With the
    empty list for [model_level] no label is asked for and the dimension is
    kept, with nothing along it. *)
Definition sel_valueOfFirstFixedSurface {grid} (da : DataArray grid)
  (model_level : intval) : outcome (DataArray grid) :=
  match da with
  | Field2D _ => Raised LevelNotFound
  | Field3D surfaces =>
      match model_level with
      | IntValue model_level =>
          match filter (fun row => Qeq_bool (inject_Z model_level) (fst row))
                  surfaces with
          | [] => Raised LevelNotFound
          | [(_, g)] => Returned (Field2D g)
          | rows => Returned (Field3D rows)
          end
      | IntEmptyList => Returned (Field3D [])
      end
  end.

(** [plt.get_cmap(name)] and [cmap.set_extremes(under=colour)] *)
Record Colormap := mkColormap { cmap_name : string; cmap_under : option string }.

Definition get_cmap (name : string) : Colormap := mkColormap name None.
Definition set_extremes (under : string) (c : Colormap) : Colormap :=
  mkColormap (cmap_name c) (Some under).

(** The keyword arguments of [xr.open_dataset(..., filters=dict(...))] *)
Definition Filters := list (string * Z).

(** ** Collaborators *)

Inductive fetch_failure := object_absent | network_failure.

Definition exn_of_fetch (f : fetch_failure) : exn :=
  match f with
  | object_absent => RemoteNotFound
  | network_failure => TransportError
  end.

(** The arguments of one [.monet.quick_imshow(...)] call *)
Record imshow_call (F grid : Type) := mk_imshow_call {
  imshow_data : DataArray grid;
  imshow_cmap : Colormap;
  imshow_roll_dateline : bool;
  imshow_levels : list (number F);
  imshow_map_kws_states : bool;
  imshow_figsize : Z * Z
}.
Arguments mk_imshow_call {F grid}.
Arguments imshow_data {F grid}.
Arguments imshow_cmap {F grid}.
Arguments imshow_roll_dateline {F grid}.
Arguments imshow_levels {F grid}.
Arguments imshow_map_kws_states {F grid}.
Arguments imshow_figsize {F grid}.

(** What the scripts get from the libraries and from the outside world.
    [None], [inl] and [false] stand for a raised exception.

    The last three fields are what xarray's [Dataset.__getitem__] does with a
    key that is not a name of the variable mapping.  [dimension_index name n]
    is the array it builds for a dimension [name] of length [n] that has no
    coordinate variable: the integers from 0 to n-1 along that dimension.
    [virtual_variable ds ref attr] is its answer to a dotted name
    ['ref.attr'] (an attribute of the variable [ref], [KeyError] when there
    is no such variable).  [getitem_empty_list ds] is [ds[[]]], the selection
    of no variable at all, as the calls that follow see it. *)
Class Externals := {
  pyfloat : Type;
  float : string -> option pyfloat;                 (* builtin float *)
  int : string -> option Z;                         (* builtin int *)
  Timestamp : strval -> option calendar_date;       (* pd.Timestamp *)
  LocalFile : Type;
  grid : Type;
  open_local : string -> fetch_failure + LocalFile; (* fsspec.open_local *)
  open_dataset : LocalFile -> option Filters -> option (Dataset grid);
                                                    (* xr.open_dataset, engine grib2io *)
  quick_imshow : imshow_call pyfloat grid -> bool;  (* monet accessor *)
  savefig : strval -> bool;                         (* monet.savefig *)
  dimension_index : string -> nat -> DataArray grid;
  virtual_variable : Dataset grid -> string -> string -> outcome (DataArray grid);
  getitem_empty_list : Dataset grid -> outcome (DataArray grid)
}.

(** ** Effects

    A run is the list of calls made to the outside, in order, and how it
    ended. *)
Section Effects.
Context `{Externals}.

Inductive event :=
| ev_open_local (url : string) (s3_anon : bool) (filecache_cache_storage : string)
| ev_open_dataset (file : LocalFile) (engine : string) (filters : option Filters)
| ev_quick_imshow (call : imshow_call pyfloat grid)
| ev_set_ylim (lo hi : Z)
| ev_set_xlim (lo hi : Z)
| ev_savefig (path : strval)
| ev_show.

Definition M (A : Type) : Type := list event * outcome A.

Definition ret {A} (a : A) : M A := ([], Returned a).

Definition bind {A B} (m : M A) (k : A -> M B) : M B :=
  match m with
  | (t, Returned a) => let (t', r) := k a in (t ++ t', r)
  | (t, Raised e) => (t, Raised e)
  end.

(** A step that touches nothing outside the process *)
Definition pure {A} (o : outcome A) : M A := ([], o).

Definition calls {A} (m : M A) : list event := fst m.
Definition result {A} (m : M A) : outcome A := snd m.

Definition fsspec_open_local (url : string) (s3_anon : bool)
  (cache_storage : string) : M LocalFile :=
  ([ev_open_local url s3_anon cache_storage],
   match open_local url with
   | inr file => Returned file
   | inl f => Raised (exn_of_fetch f)
   end).

Definition xr_open_dataset (file : LocalFile) (engine : string)
  (filters : option Filters) : M (Dataset grid) :=
  ([ev_open_dataset file engine filters],
   match open_dataset file filters with
   | Some ds => Returned ds
   | None => Raised DecodeError
   end).

Definition monet_quick_imshow (call : imshow_call pyfloat grid) : M unit :=
  ([ev_quick_imshow call],
   if quick_imshow call then Returned tt else Raised RenderError).

Definition ax_set_ylim (lo hi : Z) : M unit := ([ev_set_ylim lo hi], Returned tt).
Definition ax_set_xlim (lo hi : Z) : M unit := ([ev_set_xlim lo hi], Returned tt).

Definition monet_savefig (path : strval) : M unit :=
  ([ev_savefig path], if savefig path then Returned tt else Raised SaveError).

Definition plt_show : M unit := ([ev_show], Returned tt).

(** [pd.Timestamp(date_str)] *)
Definition pd_Timestamp (date_str : strval) : M calendar_date :=
  pure (match Timestamp date_str with
        | Some d => Returned d
        | None => Raised InvalidDate
        end).

(** [_get_virtual_variable]: a name that is not in the variable mapping is
    looked for among the dimensions, then read as ['ref.attr']; a name that
    is neither is a [KeyError]. *)
Definition get_virtual_variable (ds : Dataset grid) (key : string)
  : outcome (DataArray grid) :=
  match lookup key (sizes ds) with
  | Some n => Returned (dimension_index key n)
  | None =>
      match Str.split_once "." key with
      | Some (ref_name, var_name) => virtual_variable ds ref_name var_name
      | None => Raised (UnknownVariable key)
      end
  end.

(** [ds[variable]] *)
Definition getitem (ds : Dataset grid) (variable : strval)
  : outcome (DataArray grid) :=
  match variable with
  | StrValue name =>
      match lookup name (variables ds) with
      | Some da => Returned da
      | None => get_virtual_variable ds name
      end
  | StrEmptyList => getitem_empty_list ds
  end.

(** [argparse.Namespace] with the attributes that the surface and the
    entire-atmosphere scripts define. *)
Record Namespace := mkNamespace {
  date : strval;
  cycle : strval;
  variable : strval;
  levels : list (number pyfloat);
  output : strval
}.

(** [Namespace()] *)
Definition empty_namespace : Namespace := mkNamespace "" "" "" [] "".

Definition set_date v n :=
  mkNamespace v (cycle n) (variable n) (levels n) (output n).
Definition set_cycle v n :=
  mkNamespace (date n) v (variable n) (levels n) (output n).
Definition set_variable v n :=
  mkNamespace (date n) (cycle n) v (levels n) (output n).
Definition set_levels v n :=
  mkNamespace (date n) (cycle n) (variable n) v (output n).
Definition set_output v n :=
  mkNamespace (date n) (cycle n) (variable n) (levels n) v.

End Effects.

Declare Scope pipeline_scope.
Delimit Scope pipeline_scope with pipeline.
Notation "x <- c ;; k" := (bind c (fun x => k))
  (at level 61, c at next level, right associativity) : pipeline_scope.
Notation "c ;; k" := (bind c (fun _ => k))
  (at level 61, right associativity) : pipeline_scope.

(** ** plot_sfc_variable.py *)
Module plot_sfc_variable.
Section Script.
Context `{Externals}.
Local Open Scope pipeline_scope.

Definition parser : list (argparse.Action (F := pyfloat) (NS := Namespace)) :=
  [ argparse.HelpAction;
    argparse.StoreStr "date" None "01-22-2025" set_date;
    argparse.StoreStr "cycle" (Some ["00"; "06"; "12"; "18"]) "12" set_cycle;
    argparse.StoreStr "variable" None "sfc_tot_pm25" set_variable;
    argparse.StoreFloats "levels"
      [PyInt 1; PyInt 2; PyInt 4; PyInt 8; PyInt 16; PyInt 32; PyInt 64; PyInt 128]%Z
      set_levels;
    argparse.StoreStr "output" None "gefs_plot.jpg" set_output ].

(** [argv] is [sys.argv[1:]]. *)
Definition parse_arguments (argv : list string) : outcome Namespace :=
  argparse.parse_args float int parser argv empty_namespace.

Definition get_gefs_data (date_str cycle variable : strval) : M (Dataset grid) :=
  d <- pd_Timestamp date_str ;;
  let yyyymmdd := strftime_Ymd d in
  let base_url :=
    ("simplecache::s3://noaa-gefs-pds/gefs." ++ yyyymmdd ++ "/" ++ fstring cycle
     ++ "/chem/pgrb2ap25/gefs.chem.t" ++ fstring cycle
     ++ "z.a2d_0p25.f018.grib2")%string in
  file <- fsspec_open_local base_url true "/tmp/files" ;;
  let filters :=
    [("typeOfFirstFixedSurface", 1%Z); ("productDefinitionTemplateNumber", 48%Z)] in
  xr_open_dataset file "grib2io" (Some filters).

Definition create_plot (ds : Dataset grid) (variable : strval)
  (levels : list (number pyfloat)) (output_file : strval) : M unit :=
  let cmap := get_cmap "turbo" in
  let cmap := set_extremes "white" cmap in
  da <- pure (getitem ds variable) ;;
  monet_quick_imshow (mk_imshow_call da cmap true levels true (10, 10)%Z) ;;
  ax_set_ylim 10 50 ;;
  ax_set_xlim (-130) (-90) ;;
  monet_savefig output_file ;;
  plt_show.

Definition main (argv : list string) : M unit :=
  args <- pure (parse_arguments argv) ;;
  ds <- get_gefs_data (date args) (cycle args) (variable args) ;;
  create_plot ds (variable args) (levels args) (output args).

End Script.
End plot_sfc_variable.

(** ** plot_entire_atmosphere_variable.py *)
Module plot_entire_atmosphere_variable.
Section Script.
Context `{Externals}.
Local Open Scope pipeline_scope.

Definition parser : list (argparse.Action (F := pyfloat) (NS := Namespace)) :=
  [ argparse.HelpAction;
    argparse.StoreStr "date" None "01-22-2025" set_date;
    argparse.StoreStr "cycle" (Some ["00"; "06"; "12"; "18"]) "12" set_cycle;
    argparse.StoreStr "variable" None "totAOD550" set_variable;
    argparse.StoreFloats "levels"
      [PyInt 1; PyInt 2; PyInt 4; PyInt 8; PyInt 16; PyInt 32; PyInt 64; PyInt 128]%Z
      set_levels;
    argparse.StoreStr "output" None "gefs_plot.jpg" set_output ].

Definition parse_arguments (argv : list string) : outcome Namespace :=
  argparse.parse_args float int parser argv empty_namespace.

Definition get_gefs_data (date_str cycle variable : strval) : M (Dataset grid) :=
  d <- pd_Timestamp date_str ;;
  let yyyymmdd := strftime_Ymd d in
  let base_url :=
    ("simplecache::s3://noaa-gefs-pds/gefs." ++ yyyymmdd ++ "/" ++ fstring cycle
     ++ "/chem/pgrb2ap25/gefs.chem.t" ++ fstring cycle
     ++ "z.a2d_0p25.f018.grib2")%string in
  file <- fsspec_open_local base_url true "/tmp/files" ;;
  let filters :=
    [("typeOfFirstFixedSurface", 10%Z); ("productDefinitionTemplateNumber", 48%Z)] in
  xr_open_dataset file "grib2io" (Some filters).

Definition create_plot (ds : Dataset grid) (variable : strval)
  (levels : list (number pyfloat)) (output_file : strval) : M unit :=
  let cmap := get_cmap "turbo" in
  let cmap := set_extremes "white" cmap in
  da <- pure (getitem ds variable) ;;
  monet_quick_imshow (mk_imshow_call da cmap true levels true (10, 10)%Z) ;;
  ax_set_ylim 10 50 ;;
  ax_set_xlim (-130) (-90) ;;
  monet_savefig output_file ;;
  plt_show.

Definition main (argv : list string) : M unit :=
  args <- pure (parse_arguments argv) ;;
  ds <- get_gefs_data (date args) (cycle args) (variable args) ;;
  create_plot ds (variable args) (levels args) (output args).

End Script.
End plot_entire_atmosphere_variable.

(** ** plot_halfdegree_data.py *)
Module plot_halfdegree_data.
Section Script.
Context `{Externals}.
Local Open Scope pipeline_scope.

(** This script's namespace has one more attribute, [model_level]. *)
Record Namespace := mkNamespace {
  date : strval;
  cycle : strval;
  variable : strval;
  levels : list (number pyfloat);
  output : strval;
  model_level : intval
}.

Definition empty_namespace : Namespace := mkNamespace "" "" "" [] "" 0%Z.

Definition set_date v n :=
  mkNamespace v (cycle n) (variable n) (levels n) (output n) (model_level n).
Definition set_cycle v n :=
  mkNamespace (date n) v (variable n) (levels n) (output n) (model_level n).
Definition set_variable v n :=
  mkNamespace (date n) (cycle n) v (levels n) (output n) (model_level n).
Definition set_levels v n :=
  mkNamespace (date n) (cycle n) (variable n) v (output n) (model_level n).
Definition set_output v n :=
  mkNamespace (date n) (cycle n) (variable n) (levels n) v (model_level n).
Definition set_model_level v n :=
  mkNamespace (date n) (cycle n) (variable n) (levels n) (output n) v.

Definition parser : list (argparse.Action (F := pyfloat) (NS := Namespace)) :=
  [ argparse.HelpAction;
    argparse.StoreStr "date" None "01-22-2025" set_date;
    argparse.StoreStr "cycle" (Some ["00"; "06"; "12"; "18"]) "12" set_cycle;
    argparse.StoreStr "variable" None "sfc_tot_pm25" set_variable;
    argparse.StoreFloats "levels"
      [PyInt 1; PyInt 2; PyInt 4; PyInt 8; PyInt 16; PyInt 32; PyInt 64; PyInt 128]%Z
      set_levels;
    argparse.StoreStr "output" None "gefs_plot.jpg" set_output;
    argparse.StoreInt "model_level" 1 set_model_level ].

Definition parse_arguments (argv : list string) : outcome Namespace :=
  argparse.parse_args float int parser argv empty_namespace.

Definition get_gefs_data (date_str cycle variable : strval) : M (Dataset grid) :=
  d <- pd_Timestamp date_str ;;
  let yyyymmdd := strftime_Ymd d in
  let base_url :=
    ("simplecache::s3://noaa-gefs-pds/gefs." ++ yyyymmdd ++ "/" ++ fstring cycle
     ++ "/chem/pgrb2ap5/gefs.chem.t" ++ fstring cycle
     ++ "z.a3d_0p25.f018.grib2")%string in
  file <- fsspec_open_local base_url true "/tmp/files" ;;
  xr_open_dataset file "grib2io" None.

Definition create_plot (ds : Dataset grid) (variable : strval)
  (model_level : intval) (levels : list (number pyfloat))
  (output_file : strval) : M unit :=
  let cmap := get_cmap "turbo" in
  let cmap := set_extremes "white" cmap in
  da <- pure (getitem ds variable) ;;
  da <- pure (sel_valueOfFirstFixedSurface da model_level) ;;
  monet_quick_imshow (mk_imshow_call da cmap true levels true (10, 10)%Z) ;;
  ax_set_ylim 10 50 ;;
  ax_set_xlim (-130) (-90) ;;
  monet_savefig output_file ;;
  plt_show.

Definition main (argv : list string) : M unit :=
  args <- pure (parse_arguments argv) ;;
  ds <- get_gefs_data (date args) (cycle args) (variable args) ;;
  create_plot ds (variable args) (model_level args) (levels args) (output args).

End Script.
End plot_halfdegree_data.

(** ** A closed world for running the scripts

    Stand-ins for the collaborators, used to evaluate the scripts on concrete
    command lines.  [float] and [int] read plain decimal integers (which
    Python's [float] and [int] read to the same value); [Timestamp] reads the
    two layouts [MM-DD-YYYY] and [YYYY-MM-DD] and nothing else; the store
    holds one decoded file with a surface field, a column field and a
    three-level field, whose horizontal dimensions [y] and [x] have no
    coordinate variable (the payload of their index is their length); there
    are no dotted names, and the selection of no variable cannot be drawn. *)
Module World.

Fixpoint digits_value (s : string) (acc : nat) : option nat :=
  match s with
  | EmptyString => Some acc
  | String a s' =>
      if Str.is_digit a
      then digits_value s' (10 * acc + (nat_of_ascii a - 48))
      else None
  end.

Definition natural (s : string) : option nat :=
  match s with
  | EmptyString => None
  | _ => digits_value s 0
  end.

Definition integer (s : string) : option Z :=
  match s with
  | String "-" s' => option_map (fun n => (- Z.of_nat n)%Z) (natural s')
  | _ => option_map Z.of_nat (natural s)
  end.

Definition in_calendar (d : calendar_date) : bool :=
  (1677 <=? year d) && (year d <=? 2262)
  && (1 <=? month d) && (month d <=? 12)
  && (1 <=? day d) && (day d <=? 31).

Definition checked (y m d : option nat) : option calendar_date :=
  match y, m, d with
  | Some y, Some m, Some d =>
      let c := mkdate y m d in if in_calendar c then Some c else None
  | _, _, _ => None
  end.

Definition read_date (s : string) : option calendar_date :=
  match Str.split_once "-" s with
  | Some (a, rest) =>
      match Str.split_once "-" rest with
      | Some (b, c) =>
          if (String.length a =? 4) && (String.length b =? 2) && (String.length c =? 2)
          then checked (natural a) (natural b) (natural c)
          else if (String.length a =? 2) && (String.length b =? 2) && (String.length c =? 4)
          then checked (natural c) (natural a) (natural b)
          else None
      | None => None
      end
  | None => None
  end.

Definition timestamp (v : strval) : option calendar_date :=
  match v with
  | StrValue s => read_date s
  | StrEmptyList => None
  end.

Definition decoded : Dataset nat :=
  mkDataset
    [ ("sfc_tot_pm25", Field2D 1);
      ("totAOD550", Field2D 2);
      ("so4_pm139", Field3D [(inject_Z 2, 3); (inject_Z 5, 4); (inject_Z 10, 5)]) ]
    [ ("y", 181); ("x", 360) ].

#[export] Instance externals : Externals := {|
  pyfloat := Z;
  float := integer;
  int := integer;
  Timestamp := timestamp;
  LocalFile := string;
  grid := nat;
  open_local := fun url => inr url;
  open_dataset := fun _ _ => Some decoded;
  quick_imshow := fun call =>
    match imshow_data call with Field2D _ => true | Field3D _ => false end;
  savefig := fun _ => true;
  dimension_index := fun _ n => Field2D n;
  virtual_variable := fun _ ref _ => Raised (UnknownVariable ref);
  getitem_empty_list := fun _ => Raised RenderError
|}.

End World.


(** ** Observations on a run *)

Section Observations.
Context `{Externals}.

(** The remote keys handed to [fsspec.open_local], in call order *)
Definition requested_urls (t : list event) : list string :=
  flat_map (fun e => match e with ev_open_local u _ _ => [u] | _ => [] end) t.

(** The [filters] argument of every [xr.open_dataset] call *)
Definition decode_filters (t : list event) : list (option Filters) :=
  flat_map (fun e => match e with ev_open_dataset _ _ f => [f] | _ => [] end) t.

(** The paths given to [monet.savefig] *)
Definition images_written (t : list event) : list strval :=
  flat_map (fun e => match e with ev_savefig p => [p] | _ => [] end) t.


End Observations.

(** The path template of the 0.25-degree products (surface and entire
    atmosphere) and of the half-degree product, with the date and the cycle
    to substitute. *)
Definition a2d_0p25_key (yyyymmdd : string) (cycle : strval) : string :=
  "simplecache::s3://noaa-gefs-pds/gefs." ++ yyyymmdd ++ "/" ++ fstring cycle
  ++ "/chem/pgrb2ap25/gefs.chem.t" ++ fstring cycle ++ "z.a2d_0p25.f018.grib2".

Definition a3d_key (yyyymmdd : string) (cycle : strval) : string :=
  "simplecache::s3://noaa-gefs-pds/gefs." ++ yyyymmdd ++ "/" ++ fstring cycle
  ++ "/chem/pgrb2ap5/gefs.chem.t" ++ fstring cycle ++ "z.a3d_0p25.f018.grib2".

(** [YYYYMMDD] written digit by digit *)
Definition eight_digits (d : calendar_date) : string :=
  String (digit (year d / 1000)) (String (digit (year d / 100))
  (String (digit (year d / 10)) (String (digit (year d))
  (String (digit (month d / 10)) (String (digit (month d))
  (String (digit (day d / 10)) (String (digit (day d)) "")))))))%string.

Definition cycle_choices : list string := ["00"; "06"; "12"; "18"].

(** A command-line value that cannot be taken for an option: it is not empty
    and does not begin with ['-']. *)
Definition plain (v : string) : bool :=
  match v with
  | EmptyString => false
  | String c _ => negb (Ascii.eqb c "-")
  end.

Section FlagUse.
Context {F NS : Type} (parser : list (argparse.Action (F := F) (NS := NS))).

Definition dest_of (a : argparse.Action (F := F) (NS := NS)) : option string :=
  match a with
  | argparse.HelpAction => None
  | argparse.StoreStr d _ _ _ => Some d
  | argparse.StoreInt d _ _ => Some d
  | argparse.StoreFloats d _ _ => Some d
  end.

Definition names (dest : string) (t : argparse.token (F := F) (NS := NS)) : bool :=
  match t with
  | argparse.tok_O (Some a) _ _ =>
      match dest_of a with
      | Some d => String.eqb d dest
      | None => false
      end
  | _ => false
  end.

(** Some string of the command line is read as the option [--dest]
    (spelled out, abbreviated, or with [=value]). *)
Definition given (dest : string) (argv : list string) : bool :=
  match argparse.lex parser argv with
  | Returned ts => existsb (names dest) ts
  | Raised _ => false
  end.

End FlagUse.



(** Properties of the tokens and of the parser state that the invariants
    below are stated with. *)
Section TokenProperties.
Context {F NS : Type}.

Definition token_ok (Q : argparse.Action (F := F) (NS := NS) -> Prop)
  (t : argparse.token (F := F) (NS := NS)) : Prop :=
  match t with
  | argparse.tok_O (Some a) _ _ => Q a
  | _ => True
  end.

Definition pending_ok (Q : argparse.Action (F := F) (NS := NS) -> Prop)
  (st : argparse.pstate (F := F) (NS := NS)) : Prop :=
  match argparse.pending st with
  | Some (a, _, _) => Q a
  | None => True
  end.

(** No string that reaches an action through [t] is the separator ["--"]
    (a help action looks at no value). *)
Definition clean_token (t : argparse.token (F := F) (NS := NS)) : Prop :=
  match t with
  | argparse.tok_A s => s <> "--"
  | argparse.tok_O (Some argparse.HelpAction) _ _ => True
  | argparse.tok_O (Some _) _ (Some e) => e <> "--"
  | _ => True
  end.

Definition clean_pending (st : argparse.pstate (F := F) (NS := NS)) : Prop :=
  match argparse.pending st with
  | Some (_, _, vs) => ~ In "--" vs
  | None => True
  end.

(** The last line of [parse_args]: leftovers are an error. *)
Definition finish (st : argparse.pstate (F := F) (NS := NS)) : outcome NS :=
  match argparse.extras st with
  | [] => Returned (argparse.ns st)
  | argv => Raised (InvalidArgument (unrecognized_arguments argv))
  end.

End TokenProperties.

(** No value is glued to an option as [=--]. *)
Definition no_glued_separator (argv : list string) : Prop :=
  Forall (fun a => Str.endswith a "=--" = false) argv.

(** The defaults the scripts declare, for the attributes whose flag the
    command line does not use.  The accessors are those of the script's
    namespace. *)
Definition default_levels {F : Type} : list (number F) :=
  [PyInt 1; PyInt 2; PyInt 4; PyInt 8; PyInt 16; PyInt 32; PyInt 64; PyInt 128]%Z.

Definition omitted_are_default {F NS : Type}
  (parser : list (argparse.Action (F := F) (NS := NS)))
  (date cycle variable output : NS -> strval) (levels : NS -> list (number F))
  (variable_default : string) (argv : list string) (args : NS) : Prop :=
  (given parser "date" argv = false -> date args = "01-22-2025")
  /\ (given parser "cycle" argv = false -> cycle args = "12")
  /\ (given parser "variable" argv = false -> variable args = variable_default)
  /\ (given parser "levels" argv = false -> levels args = default_levels)
  /\ (given parser "output" argv = false -> output args = "gefs_plot.jpg").

(** ** The order of a run *)

Section TraceShape.
Context `{Externals}.

(** The place of a call in the pipeline *)
Definition stage (e : event) : nat :=
  match e with
  | ev_open_local _ _ _ => 0
  | ev_open_dataset _ _ _ => 1
  | ev_quick_imshow _ => 2
  | ev_set_ylim _ _ => 3
  | ev_set_xlim _ _ => 4
  | ev_savefig _ => 5
  | ev_show => 6
  end.

(** The calls of [t] are the first calls of the pipeline, each made once. *)
Definition in_pipeline_order (t : list event) : Prop :=
  map stage t = seq 0 (List.length t).

(** The arrays handed to [quick_imshow] *)
Definition rendered_data (t : list event) : list (DataArray grid) :=
  flat_map (fun e => match e with
                     | ev_quick_imshow c => [imshow_data c]
                     | _ => []
                     end) t.

End TraceShape.

(** The closed world with faults switched on: the fetch may fail, and the
    decoder, the renderer and [savefig] may raise. *)
Module Faults.

Definition externals (fetch : option fetch_failure) (decodes draws saves : bool)
  : Externals := {|
  pyfloat := Z;
  float := World.integer;
  int := World.integer;
  Timestamp := World.timestamp;
  LocalFile := string;
  grid := nat;
  open_local := fun url =>
    match fetch with Some f => inl f | None => inr url end;
  open_dataset := fun _ _ => if decodes then Some World.decoded else None;
  quick_imshow := fun _ => draws;
  savefig := fun _ => saves;
  dimension_index := fun _ n => Field2D n;
  virtual_variable := fun _ ref _ => Raised (UnknownVariable ref);
  getitem_empty_list := fun _ => Raised RenderError
|}.

End Faults.

(** * Facts *)

(** ** [strftime] *)

Section StrftimeFacts.

Local Ltac div_lia :=
  repeat match goal with
         | |- context [?a / 10] =>
             lazymatch goal with
             | _ : 10 * (a / 10) <= a |- _ => fail
             | _ => pose proof (Nat.Div0.mul_div_le a 10);
                    pose proof (Nat.mul_succ_div_gt a 10 ltac:(discriminate))
             end
         end;
  lia.

Lemma decimal_acc_small fuel n acc :
  n < 10 -> decimal_acc (S fuel) n acc = String (digit n) acc.
Proof.
  intros Hn. simpl. destruct (Nat.ltb_spec n 10); [reflexivity | lia].
Qed.

Lemma decimal_acc_big fuel n acc :
  10 <= n ->
  decimal_acc (S fuel) n acc = decimal_acc fuel (n / 10) (String (digit n) acc).
Proof.
  intros Hn. simpl. destruct (Nat.ltb_spec n 10); [lia | reflexivity].
Qed.

Lemma decimal_four_digits n :
  1000 <= n < 10 * 1000 ->
  decimal n =
  String (digit (n / 1000)) (String (digit (n / 100))
    (String (digit (n / 10)) (String (digit n) ""))).
Proof.
  intros Hn. unfold decimal.
  replace (S n) with (S (S (S (S (n - 3))))) by lia.
  rewrite decimal_acc_big by lia.
  rewrite decimal_acc_big by div_lia.
  rewrite decimal_acc_big by div_lia.
  rewrite decimal_acc_small by div_lia.
  rewrite !Nat.Div0.div_div. reflexivity.
Qed.

Lemma zfill_two_digits n :
  n <= 99 ->
  zfill 2 (decimal n) = String (digit (n / 10)) (String (digit n) "").
Proof.
  intros Hn. unfold decimal.
  destruct (Nat.lt_ge_cases n 10) as [Hs | Hb].
  - rewrite decimal_acc_small by exact Hs.
    rewrite (Nat.div_small n 10) by exact Hs. reflexivity.
  - replace (S n) with (S (S (n - 1))) by lia.
    rewrite decimal_acc_big by exact Hb.
    rewrite decimal_acc_small by div_lia.
    reflexivity.
Qed.

Lemma strftime_eight_digits d :
  timestamp_in_bounds d -> strftime_Ymd d = eight_digits d.
Proof.
  intros (Hy & Hm & Hd). unfold strftime_Ymd, eight_digits.
  rewrite decimal_four_digits by lia.
  rewrite !zfill_two_digits by lia.
  reflexivity.
Qed.

Lemma digit_is_digit n : Str.is_digit (digit n) = true.
Proof.
  unfold digit.
  pose proof (Nat.mod_upper_bound n 10 ltac:(discriminate)) as Hlt.
  revert Hlt. generalize (n mod 10). intros k Hk.
  do 10 (destruct k as [|k]; [reflexivity|]). lia.
Qed.

Lemma eight_digits_shape d :
  String.length (eight_digits d) = 8
  /\ Str.all Str.is_digit (eight_digits d) = true.
Proof.
  split; [reflexivity|].
  unfold eight_digits. cbn [Str.all]. rewrite !digit_is_digit. reflexivity.
Qed.

End StrftimeFacts.

(** ** argparse *)

Section ParserFacts.
Context {F NS : Type}.
Variable float : string -> option F.
Variable int : string -> option Z.
Variable parser : list (argparse.Action (F := F) (NS := NS)).

Local Abbreviation Action := (argparse.Action (F := F) (NS := NS)).
Local Abbreviation token := (argparse.token (F := F) (NS := NS)).
Local Abbreviation pstate := (argparse.pstate (F := F) (NS := NS)).
Local Abbreviation osa := (argparse.option_string_actions parser).
Local Abbreviation known := (fun a : Action => In a parser).

Lemma assoc_In k (l : list (string * Action)) a :
  argparse.assoc k l = Some a -> In (k, a) l.
Proof.
  induction l as [| [o b] l IH]; simpl; [discriminate|].
  destruct (String.eqb_spec o k) as [-> | Hne].
  - intros [= ->]. now left.
  - intros Hl. right. now apply IH.
Qed.

Lemma osa_known o a : In (o, a) osa -> In a parser.
Proof.
  unfold argparse.option_string_actions. rewrite in_flat_map.
  intros (b & Hb & Hin). apply in_map_iff in Hin as (o' & [= _ ->] & _).
  exact Hb.
Qed.

Lemma get_option_tuples_known arg a o e :
  In (a, o, e) (argparse.get_option_tuples parser arg) -> In a parser.
Proof.
  unfold argparse.get_option_tuples.
  assert (Hlong : forall pre ex,
             In (a, o, e)
                (flat_map (fun '(o, a) =>
                             if Str.startswith o pre then [(a, o, ex)] else [])
                          osa) -> In a parser).
  { intros pre ex. rewrite in_flat_map. intros ([o' b] & Hin & Hx).
    destruct (Str.startswith o' pre); [| contradiction].
    destruct Hx as [[= -> -> _] | []]. eapply osa_known; eauto. }
  assert (Hshort : forall sp se,
             In (a, o, e)
                (flat_map (fun '(o, a) =>
                             if String.eqb o sp then [(a, o, Some se)]
                             else if Str.startswith o arg then [(a, o, None)]
                                  else [])
                          osa) -> In a parser).
  { intros sp se. rewrite in_flat_map. intros ([o' b] & Hin & Hx).
    destruct (String.eqb o' sp).
    - destruct Hx as [[= -> -> _] | []]. eapply osa_known; eauto.
    - destruct (Str.startswith o' arg); [| contradiction].
      destruct Hx as [[= -> -> _] | []]. eapply osa_known; eauto. }
  destruct (Str.startswith arg "--").
  - destruct (Str.split_once "=" arg) as [[pre ex] |]; apply Hlong.
  - apply Hshort.
Qed.

Lemma parse_optional_token arg t :
  argparse.parse_optional parser arg = Returned t ->
  token_ok known t
  /\ (forall s, t = argparse.tok_A s -> s = arg)
  /\ t <> argparse.tok_dashdash.
Proof.
  unfold argparse.parse_optional.
  destruct arg as [| c rest]; [intros [= <-]; repeat split; congruence |].
  destruct (negb (Ascii.eqb c "-")); [intros [= <-]; repeat split; congruence |].
  destruct (argparse.assoc (String c rest) osa) as [a |] eqn:Hassoc.
  { intros [= <-]. repeat split; try congruence.
    simpl. eapply osa_known, assoc_In; eauto. }
  destruct (String.length (String c rest) =? 1);
    [intros [= <-]; repeat split; congruence |].
  destruct (Str.split_once "=" (String c rest)) as [[o e] |].
  - destruct (argparse.assoc o osa) as [a |] eqn:Ho.
    + intros [= <-]. repeat split; try congruence.
      simpl. eapply osa_known, assoc_In; eauto.
    + destruct (argparse.get_option_tuples parser (String c rest))
        as [| [[a o'] e'] [| ? ?]] eqn:Htup; try discriminate.
      * destruct (_ && _); [intros [= <-]; repeat split; congruence |].
        destruct (Str.contains _ _); intros [= <-]; repeat split; congruence.
      * intros [= <-]. repeat split; try congruence.
        simpl. eapply get_option_tuples_known. rewrite Htup. now left.
  - destruct (argparse.get_option_tuples parser (String c rest))
      as [| [[a o'] e'] [| ? ?]] eqn:Htup; try discriminate.
    + destruct (_ && _); [intros [= <-]; repeat split; congruence |].
      destruct (Str.contains _ _); intros [= <-]; repeat split; congruence.
    + intros [= <-]. repeat split; try congruence.
      simpl. eapply get_option_tuples_known. rewrite Htup. now left.
Qed.

Lemma lex_known argv ts :
  argparse.lex parser argv = Returned ts -> Forall (token_ok known) ts.
Proof.
  revert ts. induction argv as [| a argv IH]; intros ts; simpl.
  - intros [= <-]. constructor.
  - destruct (String.eqb a "--").
    + intros [= <-]. constructor; [exact I |].
      apply Forall_forall. intros t Ht. apply in_map_iff in Ht as (s & <- & _).
      exact I.
    + destruct (argparse.parse_optional parser a) as [t | e] eqn:Ht;
        [| discriminate]. simpl.
      destruct (argparse.lex parser argv) as [ts' | e]; [| discriminate]. simpl.
      intros [= <-]. constructor; [| now apply IH].
      now apply parse_optional_token in Ht.
Qed.

(** An invariant [P] of the namespace that every action allowed by [Q]
    preserves holds after any number of steps over tokens allowed by [Q]. *)
Section Invariant.
Variable P : NS -> Prop.
Variable Q : Action -> Prop.
Hypothesis store_preserves :
  forall a o args n n',
    Q a -> argparse.store float int a o args n = Returned n' -> P n -> P n'.

Lemma flush_invariant st st' :
  pending_ok Q st -> P (argparse.ns st) ->
  argparse.flush float int st = Returned st' ->
  P (argparse.ns st') /\ argparse.pending st' = None
  /\ argparse.extras st' = argparse.extras st.
Proof.
  unfold argparse.flush, pending_ok.
  destruct (argparse.pending st) as [[[a o] vs] |] eqn:Hp.
  - intros HQ HP.
    destruct (argparse.store float int a o vs (argparse.ns st)) as [n |] eqn:Hs;
      [| discriminate].
    simpl. intros [= <-]. simpl. repeat split. eapply store_preserves; eauto.
  - intros _ HP [= <-]. auto.
Qed.

Lemma step_invariant st t st' :
  token_ok Q t -> pending_ok Q st -> P (argparse.ns st) ->
  argparse.step float int st t = Returned st' ->
  P (argparse.ns st') /\ pending_ok Q st'.
Proof.
  intros Ht Hp HP. unfold argparse.step.
  assert (Hstore : forall a o args (ex : list string) (st0 : pstate),
             Q a -> P (argparse.ns st0) ->
             (n <- argparse.store float int a o args (argparse.ns st0) ;;
              Returned (argparse.mkpstate n ex None)) = Returned st' ->
             P (argparse.ns st') /\ pending_ok Q st').
  { intros a o args ex st0 HQ HP0.
    destruct (argparse.store float int a o args (argparse.ns st0)) as [n |] eqn:Hs;
      [| discriminate].
    simpl. intros [= <-]. split; [| exact I]. simpl.
    eapply store_preserves; eauto. }
  destruct t as [s | [a |] o e |].
  - unfold pending_ok in Hp.
    destruct (argparse.pending st) as [[[a o] vs] |] eqn:Hpend.
    + destruct a; try (now apply Hstore).
      intros [= <-]. unfold pending_ok. simpl. auto.
    + intros [= <-]. unfold pending_ok. simpl. auto.
  - destruct (argparse.flush float int st) as [st1 |] eqn:Hf;
      [| destruct a, e; discriminate].
    destruct (flush_invariant _ _ Hp HP Hf) as (HP1 & Hn1 & _).
    simpl in Ht.
    destruct a, e as [e |]; cbn [obind]; try discriminate;
      try (now apply Hstore);
      intros [= <-]; unfold pending_ok; simpl; auto.
  - destruct (argparse.flush float int st) as [st1 |] eqn:Hf; [| discriminate].
    destruct (flush_invariant _ _ Hp HP Hf) as (HP1 & Hn1 & _).
    simpl. intros [= <-]. unfold pending_ok. simpl. auto.
  - destruct (argparse.flush float int st) as [st1 |] eqn:Hf; [| discriminate].
    destruct (flush_invariant _ _ Hp HP Hf) as (HP1 & Hn1 & _).
    simpl. intros [= <-]. unfold pending_ok. simpl. auto.
Qed.

Lemma steps_invariant ts : forall st st',
  Forall (token_ok Q) ts -> pending_ok Q st -> P (argparse.ns st) ->
  argparse.steps float int ts st = Returned st' ->
  P (argparse.ns st') /\ pending_ok Q st'.
Proof.
  induction ts as [| t ts IH]; intros st st' Hts Hp HP; simpl.
  - intros [= <-]. auto.
  - inversion Hts as [| ? ? Ht Hts']; subst.
    destruct (argparse.step float int st t) as [st1 |] eqn:Hs; [| discriminate].
    simpl. destruct (step_invariant _ _ _ Ht Hp HP Hs) as (HP1 & Hp1).
    now apply IH.
Qed.

Lemma run_invariant ts st st' :
  Forall (token_ok Q) ts -> pending_ok Q st -> P (argparse.ns st) ->
  argparse.run float int ts st = Returned st' -> P (argparse.ns st').
Proof.
  intros Hts Hp HP. unfold argparse.run.
  destruct (argparse.steps float int ts st) as [st1 |] eqn:Hs; [| discriminate].
  simpl. destruct (steps_invariant _ _ _ Hts Hp HP Hs) as (HP1 & Hp1).
  intros Hf. now destruct (flush_invariant _ _ Hp1 HP1 Hf).
Qed.

End Invariant.

End ParserFacts.

(** ** Rejection *)

Section ParserRejects.
Context {F NS : Type}.
Variable float : string -> option F.
Variable int : string -> option Z.
Variable parser : list (argparse.Action (F := F) (NS := NS)).

Local Abbreviation Action := (argparse.Action (F := F) (NS := NS)).
Local Abbreviation token := (argparse.token (F := F) (NS := NS)).
Local Abbreviation pstate := (argparse.pstate (F := F) (NS := NS)).
Local Abbreviation osa := (argparse.option_string_actions parser).

Lemma parse_args_unfold argv ns0 :
  argparse.parse_args float int parser argv ns0 =
  (ts <- argparse.lex parser argv ;;
   st <- argparse.run float int ts
           (argparse.mkpstate (fold_left argparse.set_default parser ns0) [] None) ;;
   finish st).
Proof.
  unfold argparse.parse_args, argparse.parse_known_args, finish.
  destruct (argparse.lex parser argv) as [ts |]; [| reflexivity]. simpl.
  destruct (argparse.run _ _ _ _) as [st |]; reflexivity.
Qed.

Lemma flush_extras (st st' : pstate) :
  argparse.flush float int st = Returned st' ->
  argparse.extras st' = argparse.extras st.
Proof.
  unfold argparse.flush.
  destruct (argparse.pending st) as [[[a o] vs] |]; [| now intros [= <-]].
  destruct (argparse.store _ _ _ _ _ _); [| discriminate].
  now intros [= <-].
Qed.

Lemma step_extras (st st' : pstate) t :
  argparse.step float int st t = Returned st' ->
  exists l, argparse.extras st' = argparse.extras st ++ l.
Proof.
  unfold argparse.step.
  assert (Hsame : forall a o args (st0 : pstate),
             (n <- argparse.store float int a o args (argparse.ns st0) ;;
              Returned (argparse.mkpstate n (argparse.extras st0) None))
             = Returned st' ->
             argparse.extras st' = argparse.extras st0).
  { intros a o args st0.
    destruct (argparse.store _ _ _ _ _ _); [| discriminate]. now intros [= <-]. }
  destruct t as [s | [a |] o e |].
  - destruct (argparse.pending st) as [[[a o] vs] |].
    + intros Hst. exists []. rewrite app_nil_r. revert Hst.
      destruct a; try (now apply Hsame). now intros [= <-].
    + intros [= <-]. now exists [s].
  - destruct (argparse.flush float int st) as [st1 |] eqn:Hf;
      [| destruct a, e; discriminate].
    apply flush_extras in Hf. rewrite <- Hf.
    intros Hst. exists []. rewrite app_nil_r. revert Hst.
    destruct a, e as [e |]; cbn [obind]; try discriminate;
      try (now apply Hsame); now intros [= <-].
  - destruct (argparse.flush float int st) as [st1 |] eqn:Hf; [| discriminate].
    apply flush_extras in Hf. rewrite <- Hf. simpl. intros [= <-]. now exists [o].
  - destruct (argparse.flush float int st) as [st1 |] eqn:Hf; [| discriminate].
    apply flush_extras in Hf. rewrite <- Hf. simpl. intros [= <-]. now exists ["--"].
Qed.

Lemma steps_extras ts : forall (st st' : pstate),
  argparse.steps float int ts st = Returned st' ->
  exists l, argparse.extras st' = argparse.extras st ++ l.
Proof.
  induction ts as [| t ts IH]; intros st st'; simpl.
  - intros [= <-]. exists []. now rewrite app_nil_r.
  - destruct (argparse.step float int st t) as [st1 |] eqn:Hs; [| discriminate].
    simpl. intros Hrest.
    apply step_extras in Hs as (l1 & H1). apply IH in Hrest as (l2 & H2).
    exists (l1 ++ l2). now rewrite H2, H1, app_assoc.
Qed.

(** Once something is left over the command line is lost. *)
Lemma leftovers_are_fatal ts (st : pstate) :
  argparse.extras st <> [] ->
  exists e, (st' <- argparse.run float int ts st ;; finish st') = Raised e.
Proof.
  intros Hne. unfold argparse.run.
  destruct (argparse.steps float int ts st) as [st1 |] eqn:Hs; [| now eexists].
  simpl. destruct (argparse.flush float int st1) as [st2 |] eqn:Hf; [| now eexists].
  simpl. apply steps_extras in Hs as (l & Hl). apply flush_extras in Hf.
  unfold finish. rewrite Hf, Hl.
  destruct (argparse.extras st) as [| x xs]; [congruence |]. simpl. now eexists.
Qed.

Section Choices.
Variables (flag_tail d df : string) (cs : list string) (set : strval -> NS -> NS).
Let flag : string := String "-" flag_tail.
Hypothesis flag_registered :
  argparse.assoc flag osa = Some (argparse.StoreStr d (Some cs) df set).
Hypothesis flag_not_separator : String.eqb flag "--" = false.





End Choices.

End ParserRejects.

(** ** Values of [--levels] *)

Section ParserLevels.
Context {F NS : Type}.
Variable float : string -> option F.
Variable int : string -> option Z.
Variable parser : list (argparse.Action (F := F) (NS := NS)).

Local Abbreviation pstate := (argparse.pstate (F := F) (NS := NS)).
Local Abbreviation osa := (argparse.option_string_actions parser).

Lemma plain_is_argument v :
  plain v = true ->
  argparse.parse_optional parser v = Returned (argparse.tok_A v)
  /\ String.eqb v "--" = false.
Proof.
  destruct v as [| c v]; [discriminate |]. simpl. intros Hc.
  rewrite Hc. split; [reflexivity |].
  destruct (Ascii.eqb_spec c "-"); [discriminate |].
  destruct (Ascii.eqb_spec c "-"); [contradiction | reflexivity].
Qed.

Lemma remove_dashdash_plain vs :
  forallb plain vs = true -> argparse.remove_dashdash vs = vs.
Proof.
  induction vs as [| v vs IH]; [reflexivity |].
  cbn [forallb]. intros [Hv Hvs]%andb_prop.
  destruct (plain_is_argument v Hv) as (_ & Hd).
  cbn [argparse.remove_dashdash]. now rewrite Hd, (IH Hvs).
Qed.

Lemma lex_plain vs :
  forallb plain vs = true ->
  argparse.lex parser vs = Returned (map argparse.tok_A vs).
Proof.
  induction vs as [| v vs IH]; [reflexivity |].
  cbn [forallb]. intros [Hv Hvs]%andb_prop.
  destruct (plain_is_argument v Hv) as (Hp & Hd).
  cbn [argparse.lex map]. rewrite Hd, Hp, (IH Hvs). reflexivity.
Qed.

Lemma steps_collect vs : forall (st : pstate) d df set o acc,
  argparse.pending st = Some (argparse.StoreFloats d df set, o, acc) ->
  argparse.steps float int (map argparse.tok_A vs) st
  = Returned (argparse.mkpstate (argparse.ns st) (argparse.extras st)
                (Some (argparse.StoreFloats d df set, o, acc ++ vs))).
Proof.
  induction vs as [| v vs IH]; intros st d df set o acc Hp.
  - simpl. rewrite app_nil_r. destruct st; simpl in *. now subst.
  - cbn [map argparse.steps argparse.step]. rewrite Hp. cbn [obind].
    erewrite IH by reflexivity. cbn. now rewrite <- app_assoc.
Qed.



End ParserLevels.

(** ** Command lines cut in two, and the separator *)

Section ParserSeparator.
Context {F NS : Type}.
Variable float : string -> option F.
Variable int : string -> option Z.
Variable parser : list (argparse.Action (F := F) (NS := NS)).

Local Abbreviation pstate := (argparse.pstate (F := F) (NS := NS)).
Local Abbreviation init ns0 :=
  (argparse.mkpstate (fold_left argparse.set_default parser ns0) [] None).

Lemma lex_app pre : forall rest,
  ~ In "--" pre ->
  argparse.lex parser (pre ++ rest)
  = (ts1 <- argparse.lex parser pre ;;
     ts2 <- argparse.lex parser rest ;;
     Returned (ts1 ++ ts2)).
Proof.
  induction pre as [| p pre IH]; intros rest Hno.
  - cbn [app]. cbn [argparse.lex obind]. now destruct (argparse.lex parser rest).
  - cbn [app]. remember (pre ++ rest) as all eqn:Hall. cbn [argparse.lex].
    destruct (String.eqb_spec p "--") as [-> | _]; [exfalso; apply Hno; now left |].
    destruct (argparse.parse_optional parser p) as [t |]; [| reflexivity].
    cbn [obind]. subst all. rewrite IH by (intros Hin; apply Hno; now right).
    destruct (argparse.lex parser pre) as [ts1 |]; [| reflexivity]. cbn [obind].
    now destruct (argparse.lex parser rest).
Qed.

Lemma steps_app ts1 : forall ts2 (st : pstate),
  argparse.steps float int (ts1 ++ ts2) st
  = (st' <- argparse.steps float int ts1 st ;; argparse.steps float int ts2 st').
Proof.
  induction ts1 as [| t ts1 IH]; intros ts2 st; [reflexivity |].
  cbn [app argparse.steps].
  destruct (argparse.step float int st t) as [st1 |]; [| reflexivity].
  cbn [obind]. apply IH.
Qed.

(** The separator [--] loses the command line: no script takes positional
    arguments. *)
Lemma separator_is_fatal argv : forall ts (st : pstate),
  In "--" argv ->
  argparse.lex parser argv = Returned ts ->
  exists e, (st' <- argparse.run float int ts st ;; finish st') = Raised e.
Proof.
  induction argv as [| a argv IH]; intros ts st Hin; [contradiction |].
  remember argv as rest eqn:Hrest. cbn [argparse.lex].
  destruct (String.eqb_spec a "--") as [-> | Hne].
  - intros [= <-]. unfold argparse.run. cbn [argparse.steps argparse.step].
    destruct (argparse.flush float int st) as [st1 |]; [| now eexists].
    cbn [obind]. apply leftovers_are_fatal. simpl.
    destruct (argparse.extras st1); discriminate.
  - destruct Hin as [-> | Hin]; [contradiction |].
    destruct (argparse.parse_optional parser a) as [t |]; [| discriminate].
    cbn [obind].
    destruct (argparse.lex parser rest) as [ts' |] eqn:Hl; [| discriminate].
    cbn [obind]. intros [= <-]. unfold argparse.run. cbn [argparse.steps].
    destruct (argparse.step float int st t) as [st1 |]; [| now eexists].
    cbn [obind]. subst rest. exact (IH ts' st1 Hin eq_refl).
Qed.

Lemma parse_args_state argv ns0 n :
  argparse.parse_args float int parser argv ns0 = Returned n ->
  ~ In "--" argv
  /\ exists ts st0,
      argparse.lex parser argv = Returned ts
      /\ argparse.steps float int ts (init ns0) = Returned st0
      /\ argparse.flush float int st0
         = Returned (argparse.mkpstate n [] None).
Proof.
  rewrite parse_args_unfold.
  destruct (argparse.lex parser argv) as [ts |] eqn:Hlex; [| discriminate].
  cbn [obind]. intros Hrun. split.
  - intros Hin.
    destruct (separator_is_fatal argv ts (init ns0) Hin Hlex) as (e & He).
    rewrite He in Hrun. discriminate.
  - exists ts. unfold argparse.run in Hrun.
    destruct (argparse.steps float int ts (init ns0)) as [st0 |]; [| discriminate].
    cbn [obind] in Hrun. exists st0. repeat split.
    destruct (argparse.flush float int st0) as [st |] eqn:Hf; [| discriminate].
    cbn [obind] in Hrun. unfold finish in Hrun.
    assert (Hp : argparse.pending st = None).
    { unfold argparse.flush in Hf.
      destruct (argparse.pending st0) as [[[a o] vs] |] eqn:Hp0.
      - destruct (argparse.store _ _ _ _ _ _); [| discriminate].
        now injection Hf as <-.
      - injection Hf as <-. exact Hp0. }
    destruct st as [n' ex p]. simpl in *. subst p.
    destruct ex; [| discriminate]. now injection Hrun as ->.
Qed.

End ParserSeparator.

(** ** Traces *)

Section TraceFacts.
Context `{Externals}.

Lemma calls_bind {A B} (m : M A) (k : A -> M B) :
  calls (bind m k)
  = calls m ++ match result m with
               | Returned a => calls (k a)
               | Raised _ => []
               end.
Proof.
  destruct m as [t [a | e]]; unfold bind, calls, result; simpl.
  - now destruct (k a).
  - now rewrite app_nil_r.
Qed.

Lemma result_bind {A B} (m : M A) (k : A -> M B) :
  result (bind m k)
  = match result m with
    | Returned a => result (k a)
    | Raised e => Raised e
    end.
Proof.
  destruct m as [t [a | e]]; unfold bind, result; simpl; [| reflexivity].
  now destruct (k a).
Qed.

Lemma bind_pure_returned {A B} (a : A) (k : A -> M B) :
  bind (pure (Returned a)) k = k a.
Proof. unfold bind, pure. now destruct (k a). Qed.

Lemma bind_pure_raised {A B} (e : exn) (k : A -> M B) :
  bind (pure (Raised e)) k = ([], Raised e).
Proof. reflexivity. Qed.

End TraceFacts.

(** ** Invariants of a whole parse *)

Section ParseInvariants.
Context {F NS : Type}.
Variable float : string -> option F.
Variable int : string -> option Z.
Variable parser : list (argparse.Action (F := F) (NS := NS)).

Local Abbreviation Action := (argparse.Action (F := F) (NS := NS)).

Lemma parse_args_returned argv ns0 n :
  argparse.parse_args float int parser argv ns0 = Returned n ->
  exists ts st,
    argparse.lex parser argv = Returned ts
    /\ argparse.run float int ts
         (argparse.mkpstate (fold_left argparse.set_default parser ns0) [] None)
       = Returned st
    /\ argparse.ns st = n.
Proof.
  rewrite parse_args_unfold.
  destruct (argparse.lex parser argv) as [ts |]; [| discriminate]. cbn [obind].
  destruct (argparse.run _ _ _ _) as [st |] eqn:Hrun; [| discriminate].
  cbn [obind]. unfold finish.
  destruct (argparse.extras st); [| discriminate].
  intros [= <-]. now exists ts, st.
Qed.

(** What every action of the parser preserves and the defaults satisfy
    holds of every namespace [parse_args] returns. *)
Lemma parse_args_invariant (P : NS -> Prop) argv ns0 n :
  (forall a o args n n',
      In a parser ->
      argparse.store float int a o args n = Returned n' -> P n -> P n') ->
  P (fold_left argparse.set_default parser ns0) ->
  argparse.parse_args float int parser argv ns0 = Returned n -> P n.
Proof.
  intros Hstore Hdef Hparse.
  apply parse_args_returned in Hparse as (ts & st & Hlex & Hrun & <-).
  refine (run_invariant float int P (fun a => In a parser) Hstore ts
            (argparse.mkpstate (fold_left argparse.set_default parser ns0) [] None)
            st _ I Hdef Hrun).
  eapply lex_known; eauto.
Qed.

Lemma not_named_tokens dest (ts : list (argparse.token (F := F) (NS := NS))) :
  Forall (token_ok (fun a => In a parser)) ts ->
  existsb (names dest) ts = false ->
  Forall (token_ok (fun a => In a parser /\ dest_of a <> Some dest)) ts.
Proof.
  induction 1 as [| t ts Ht _ IH]; [constructor |].
  cbn [existsb]. intros [Hn Hrest]%orb_false_elim.
  constructor; [| now apply IH].
  destruct t as [s | [a |] o e |]; simpl in *; try exact I.
  split; [exact Ht |].
  destruct (dest_of a) as [d |]; [| discriminate].
  intros [= ->]. now rewrite String.eqb_refl in Hn.
Qed.

(** What every action other than [--dest] preserves and the defaults
    satisfy holds after a command line that does not use [--dest]. *)
Lemma parse_args_keeps (P : NS -> Prop) dest argv ns0 n :
  (forall a o args n n',
      In a parser /\ dest_of a <> Some dest ->
      argparse.store float int a o args n = Returned n' -> P n -> P n') ->
  P (fold_left argparse.set_default parser ns0) ->
  given parser dest argv = false ->
  argparse.parse_args float int parser argv ns0 = Returned n -> P n.
Proof.
  intros Hstore Hdef Hgiven Hparse.
  apply parse_args_returned in Hparse as (ts & st & Hlex & Hrun & <-).
  unfold given in Hgiven. rewrite Hlex in Hgiven.
  refine (run_invariant float int P
            (fun a => In a parser /\ dest_of a <> Some dest) Hstore ts
            (argparse.mkpstate (fold_left argparse.set_default parser ns0) [] None)
            st _ I Hdef Hrun).
  apply not_named_tokens; [eapply lex_known; eauto | exact Hgiven].
Qed.

End ParseInvariants.

(** ** Command lines without a glued [--] *)

Section StringFacts.

Lemma length_append (p s : string) :
  String.length (p ++ s) = String.length p + String.length s.
Proof. induction p as [| a p IH]; simpl; [reflexivity | now rewrite IH]. Qed.

Lemma substring_skip (p s : string) n :
  substring (String.length p) n (p ++ s) = substring 0 n s.
Proof. induction p as [| a p IH]; simpl; [reflexivity | exact IH]. Qed.

Lemma substring_all (s : string) : substring 0 (String.length s) s = s.
Proof. induction s as [| a s IH]; simpl; [reflexivity | now rewrite IH]. Qed.

Lemma endswith_append (p s : string) : Str.endswith (p ++ s) s = true.
Proof.
  unfold Str.endswith. rewrite length_append, Nat.add_sub.
  rewrite substring_skip, substring_all, String.eqb_refl. simpl.
  apply Nat.leb_le. lia.
Qed.

Lemma split_once_joins c s l r :
  Str.split_once c s = Some (l, r) -> s = (l ++ String c r)%string.
Proof.
  revert l. induction s as [| a s IH]; intros l; simpl; [discriminate |].
  destruct (Ascii.eqb_spec a c) as [-> | _].
  - now intros [= <- <-].
  - destruct (Str.split_once c s) as [[l' r'] |]; [| discriminate].
    intros [= <- <-]. simpl. f_equal. now apply IH.
Qed.

(** The text after the first [=] of a string that does not end with [=--]
    is not [--]. *)
Lemma glued_value_clean arg o e :
  Str.endswith arg "=--" = false ->
  Str.split_once "=" arg = Some (o, e) -> e <> "--".
Proof.
  intros Hend Hsplit ->. apply split_once_joins in Hsplit. subst arg.
  change (o ++ String "=" "--")%string with (o ++ "=--")%string in Hend.
  now rewrite endswith_append in Hend.
Qed.

Lemma take_two_dashes arg :
  Str.take 2 arg = "--" -> Str.startswith arg "--" = true.
Proof.
  unfold Str.take, Str.startswith.
  destruct arg as [| a [| b r]]; intros Htake; simpl in Htake;
    try discriminate Htake.
  injection Htake as -> ->. now destruct r.
Qed.

End StringFacts.

Section CleanCommandLines.
Context {F NS : Type}.
Variable float : string -> option F.
Variable int : string -> option Z.
Variable parser : list (argparse.Action (F := F) (NS := NS)).

Local Abbreviation Action := (argparse.Action (F := F) (NS := NS)).
Local Abbreviation token := (argparse.token (F := F) (NS := NS)).
Local Abbreviation pstate := (argparse.pstate (F := F) (NS := NS)).
Local Abbreviation osa := (argparse.option_string_actions parser).

Lemma remove_dashdash_clean args :
  ~ In "--" args -> argparse.remove_dashdash args = args.
Proof.
  induction args as [| a args IH]; [reflexivity |].
  intros Hno. cbn [argparse.remove_dashdash].
  destruct (String.eqb_spec a "--") as [-> | _]; [exfalso; apply Hno; now left |].
  rewrite IH; [reflexivity |]. intros Hin. apply Hno. now right.
Qed.

Lemma osa_option_string o (a : Action) :
  In (o, a) osa -> In o (argparse.option_strings a).
Proof.
  unfold argparse.option_string_actions. rewrite in_flat_map.
  intros (b & _ & Hin). apply in_map_iff in Hin as (o' & [= <- <-] & Ho).
  exact Ho.
Qed.

(** Only the help action has an option string of one dash. *)
Lemma short_option_is_help o (a : Action) :
  In (o, a) osa -> Str.startswith o "--" = false -> a = argparse.HelpAction.
Proof.
  assert (Hlong : forall d, Str.startswith (argparse.long_option d) "--" = true)
    by (intros d; now destruct d).
  intros Hin%osa_option_string Hshort.
  destruct a as [| d ? ? ? | d ? ? | d ? ?]; [reflexivity | | |];
    destruct Hin as [<- | []]; now rewrite Hlong in Hshort.
Qed.

Lemma get_option_tuples_clean arg (a : Action) o e :
  Str.endswith arg "=--" = false ->
  In (a, o, Some e) (argparse.get_option_tuples parser arg) ->
  a = argparse.HelpAction \/ e <> "--".
Proof.
  intros Hend. unfold argparse.get_option_tuples.
  destruct (Str.startswith arg "--") eqn:Hlong.
  - destruct (Str.split_once "=" arg) as [[pre ex] |] eqn:Hsplit;
      rewrite in_flat_map; intros ([o' b] & _ & Hx);
      destruct (Str.startswith o' _); try contradiction;
      destruct Hx as [[= _ _ <-] | []].
    right. eapply glued_value_clean; eauto.
  - rewrite in_flat_map. intros ([o' b] & Hin & Hx).
    destruct (String.eqb_spec o' (Str.take 2 arg)) as [Heq | _].
    + destruct Hx as [[= <- _ _] | []]. left.
      apply (short_option_is_help o' b Hin).
      destruct (Str.startswith o' "--") eqn:Ho; [| reflexivity].
      assert (Htake : Str.take 2 arg = "--").
      { rewrite <- Heq. clear - Ho Heq.
        assert (Hlen : String.length (Str.take 2 arg) <= 2).
        { unfold Str.take. destruct arg as [| x [| y [| z r]]]; simpl; lia. }
        rewrite <- Heq in Hlen.
        apply prefix_correct in Ho.
        destruct o' as [| x [| y [| z r]]]; simpl in Ho, Hlen;
          try discriminate Ho; [exact Ho | lia]. }
      apply take_two_dashes in Htake. congruence.
    + destruct (Str.startswith o' arg); [| contradiction].
      destruct Hx as [[=] | []].
Qed.

Lemma parse_optional_clean arg t :
  arg <> "--" ->
  Str.endswith arg "=--" = false ->
  argparse.parse_optional parser arg = Returned t -> clean_token t.
Proof.
  intros Hsep Hend. unfold argparse.parse_optional.
  assert (Htuples : forall a o e,
             argparse.get_option_tuples parser arg = [(a, o, e)] ->
             clean_token (argparse.tok_O (Some a) o e)).
  { intros a o e Htup. destruct e as [e |]; [| destruct a; exact I].
    destruct (get_option_tuples_clean arg a o e Hend) as [-> | He];
      [rewrite Htup; now left | exact I | destruct a; simpl; auto]. }
  destruct arg as [| c rest]; [intros [= <-]; exact Hsep |].
  destruct (negb (Ascii.eqb c "-")); [intros [= <-]; exact Hsep |].
  destruct (argparse.assoc (String c rest) osa) as [a |].
  { intros [= <-]. destruct a; exact I. }
  destruct (String.length (String c rest) =? 1); [intros [= <-]; exact Hsep |].
  destruct (Str.split_once "=" (String c rest)) as [[o e] |] eqn:Hsplit.
  - destruct (argparse.assoc o osa) as [a |].
    + intros [= <-]. pose proof (glued_value_clean _ _ _ Hend Hsplit).
      destruct a; simpl; auto.
    + destruct (argparse.get_option_tuples parser (String c rest))
        as [| [[a o'] e'] [| ? ?]] eqn:Htup; try discriminate.
      * destruct (_ && _); [intros [= <-]; exact Hsep |].
        destruct (Str.contains _ _); intros [= <-]; [exact Hsep | exact I].
      * intros [= <-]. now apply Htuples.
  - destruct (argparse.get_option_tuples parser (String c rest))
      as [| [[a o'] e'] [| ? ?]] eqn:Htup; try discriminate.
    + destruct (_ && _); [intros [= <-]; exact Hsep |].
      destruct (Str.contains _ _); intros [= <-]; [exact Hsep | exact I].
    + intros [= <-]. now apply Htuples.
Qed.

Lemma lex_clean argv : forall ts,
  ~ In "--" argv -> no_glued_separator argv ->
  argparse.lex parser argv = Returned ts -> Forall clean_token ts.
Proof.
  induction argv as [| a argv IH]; intros ts Hno Hglue; simpl.
  - intros [= <-]. constructor.
  - inversion Hglue as [| ? ? Ha Hrest]; subst.
    destruct (String.eqb_spec a "--") as [-> | Hne];
      [exfalso; apply Hno; now left |].
    destruct (argparse.parse_optional parser a) as [t |] eqn:Ht; [| discriminate].
    cbn [obind].
    destruct (argparse.lex parser argv) as [ts' |]; [| discriminate].
    cbn [obind]. intros [= <-]. constructor.
    + eapply parse_optional_clean; eauto.
    + apply IH; auto. intros Hin. apply Hno. now right.
Qed.

(** An invariant [P] of the namespace that every action allowed by [Q]
    preserves when it is given no ["--"] holds after any number of steps
    over clean tokens allowed by [Q]. *)
Section CleanInvariant.
Variable P : NS -> Prop.
Variable Q : Action -> Prop.
Hypothesis store_preserves :
  forall a o args n n',
    Q a -> ~ In "--" args ->
    argparse.store float int a o args n = Returned n' -> P n -> P n'.

Let ok (t : token) : Prop := token_ok Q t /\ clean_token t.
Let ready (st : pstate) : Prop := pending_ok Q st /\ clean_pending st.

Lemma flush_clean st st' :
  ready st -> P (argparse.ns st) ->
  argparse.flush float int st = Returned st' ->
  P (argparse.ns st') /\ argparse.pending st' = None.
Proof.
  unfold argparse.flush, ready, pending_ok, clean_pending.
  destruct (argparse.pending st) as [[[a o] vs] |] eqn:Hp.
  - intros (HQ & Hc) HP.
    destruct (argparse.store float int a o vs (argparse.ns st)) as [n |] eqn:Hs;
      [| discriminate].
    simpl. intros [= <-]. simpl. split; [| reflexivity].
    eapply store_preserves; eauto.
  - intros _ HP [= <-]. auto.
Qed.

Lemma step_clean st t st' :
  ok t -> ready st -> P (argparse.ns st) ->
  argparse.step float int st t = Returned st' ->
  P (argparse.ns st') /\ ready st'.
Proof.
  intros (Ht & Hc) Hp HP. unfold argparse.step.
  assert (Hdone : forall st0 : pstate,
             argparse.pending st0 = None -> P (argparse.ns st0) ->
             P (argparse.ns st0) /\ ready st0).
  { intros st0 Hnone Hn. split; [exact Hn |].
    unfold ready, pending_ok, clean_pending. now rewrite Hnone. }
  assert (Hstore : forall a o args (ex : list string) (st0 : pstate),
             Q a -> ~ In "--" args -> P (argparse.ns st0) ->
             (n <- argparse.store float int a o args (argparse.ns st0) ;;
              Returned (argparse.mkpstate n ex None)) = Returned st' ->
             P (argparse.ns st') /\ ready st').
  { intros a o args ex st0 HQ Hargs HP0.
    destruct (argparse.store float int a o args (argparse.ns st0)) as [n |] eqn:Hs;
      [| discriminate].
    simpl. intros [= <-]. apply Hdone; [reflexivity |]. simpl.
    eapply store_preserves; eauto. }
  assert (Hone : forall e : string, e <> "--" -> ~ In "--" [e]).
  { intros e He [Hx | []]. now apply He. }
  destruct t as [s | [a |] o e |].
  - destruct Hp as (Hq & Hcl). unfold pending_ok in Hq. unfold clean_pending in Hcl.
    simpl in Hc.
    destruct (argparse.pending st) as [[[a o] vs] |] eqn:Hpend.
    + assert (Hvs : ~ In "--" (vs ++ [s])).
      { intros [Hin | [Hin | []]]%in_app_or; [now apply Hcl | now apply Hc]. }
      destruct a; try (now apply Hstore).
      intros [= <-]. split; [exact HP |].
      split; unfold pending_ok, clean_pending; simpl; auto.
    + intros [= <-]. now apply Hdone.
  - destruct (argparse.flush float int st) as [st1 |] eqn:Hf;
      [| destruct a, e; discriminate].
    destruct (flush_clean _ _ Hp HP Hf) as (HP1 & Hn1).
    simpl in Ht.
    destruct a, e as [e |]; cbn [obind]; try discriminate;
      try (apply Hstore; auto; apply Hone; exact Hc);
      intros [= <-]; (split; [exact HP1 |]);
      split; unfold pending_ok, clean_pending; simpl; auto.
  - destruct (argparse.flush float int st) as [st1 |] eqn:Hf; [| discriminate].
    destruct (flush_clean _ _ Hp HP Hf) as (HP1 & Hn1).
    simpl. intros [= <-]. now apply Hdone.
  - destruct (argparse.flush float int st) as [st1 |] eqn:Hf; [| discriminate].
    destruct (flush_clean _ _ Hp HP Hf) as (HP1 & Hn1).
    simpl. intros [= <-]. now apply Hdone.
Qed.

Lemma steps_clean ts : forall st st',
  Forall ok ts -> ready st -> P (argparse.ns st) ->
  argparse.steps float int ts st = Returned st' ->
  P (argparse.ns st') /\ ready st'.
Proof.
  induction ts as [| t ts IH]; intros st st' Hts Hp HP; simpl.
  - intros [= <-]. auto.
  - inversion Hts as [| ? ? Ht Hts']; subst.
    destruct (argparse.step float int st t) as [st1 |] eqn:Hs; [| discriminate].
    simpl. destruct (step_clean _ _ _ Ht Hp HP Hs) as (HP1 & Hp1).
    now apply IH.
Qed.

Lemma run_clean ts st st' :
  Forall (token_ok Q) ts -> Forall clean_token ts ->
  pending_ok Q st -> clean_pending st -> P (argparse.ns st) ->
  argparse.run float int ts st = Returned st' -> P (argparse.ns st').
Proof.
  intros Hts Hcl Hp Hcp HP. unfold argparse.run.
  assert (Hok : Forall ok ts).
  { clear - Hts Hcl. induction Hts as [| t ts Ht _ IH]; [constructor |].
    inversion Hcl; subst. constructor; [now split | now apply IH]. }
  destruct (argparse.steps float int ts st) as [st1 |] eqn:Hs; [| discriminate].
  simpl. destruct (steps_clean _ _ _ Hok (conj Hp Hcp) HP Hs) as (HP1 & Hp1).
  intros Hf. now destruct (flush_clean _ _ Hp1 HP1 Hf).
Qed.

End CleanInvariant.

(** What every action of the parser preserves when it is given no ["--"],
    and the defaults satisfy, holds of every namespace [parse_args] returns
    for a command line without a glued [--]. *)
Lemma parse_args_invariant_clean (P : NS -> Prop) argv ns0 n :
  (forall a o args n n',
      In a parser -> ~ In "--" args ->
      argparse.store float int a o args n = Returned n' -> P n -> P n') ->
  P (fold_left argparse.set_default parser ns0) ->
  no_glued_separator argv ->
  argparse.parse_args float int parser argv ns0 = Returned n -> P n.
Proof.
  intros Hstore Hdef Hglue Hparse.
  destruct (parse_args_state float int parser argv ns0 n Hparse) as (Hno & _).
  apply parse_args_returned in Hparse as (ts & st & Hlex & Hrun & <-).
  refine (run_clean P (fun a => In a parser) Hstore ts
            (argparse.mkpstate (fold_left argparse.set_default parser ns0) [] None)
            st _ _ I I Hdef Hrun).
  - eapply lex_known; eauto.
  - eapply lex_clean; eauto.
Qed.

End CleanCommandLines.



(** Case analysis on the action of a script's parser and on what its store
    does. *)
Ltac each_action Hin :=
  simpl in Hin;
  repeat (destruct Hin as [<- | Hin]); [.. | contradiction].

Ltac open_store Hs :=
  unfold argparse.store in Hs;
  repeat match type of Hs with
         | context [match ?x with _ => _ end] =>
             destruct x eqn:?; try discriminate Hs
         | context [obind ?m _] =>
             destruct m eqn:?; cbn [obind] in Hs; try discriminate Hs
         end;
  try discriminate Hs;
  try (injection Hs as <-).

(** The same when the action is given no ["--"], which [Hclean] says. *)
Ltac open_clean_store Hclean Hs :=
  unfold argparse.store in Hs;
  rewrite ?(remove_dashdash_clean _ Hclean) in Hs;
  open_store Hs.

(** ** The three parsers *)

Ltac untouched :=
  let a := fresh "a" in
  let o := fresh "o" in
  let args := fresh "args" in
  let n := fresh "n" in
  let n' := fresh "n'" in
  let Hin := fresh "Hin" in
  let Hd := fresh "Hd" in
  let Hs := fresh "Hs" in
  let HP := fresh "HP" in
  intros a o args n n' [Hin Hd] Hs HP;
  each_action Hin;
  try (exfalso; apply Hd; reflexivity);
  open_store Hs; simpl; exact HP.

Ltac omitted_default Hparse :=
  unfold omitted_are_default; repeat split;
  let Hg := fresh "Hg" in
  intros Hg;
  match type of Hg with
  | given ?p ?d _ = false =>
      match goal with
      | |- ?f _ = ?v =>
          refine (parse_args_keeps float int p (fun n => f n = v) d _ _ _
                    _ eq_refl Hg Hparse);
          untouched
      end
  end.

Section ParsersFacts.
Context `{Externals}.

Lemma sfc_omitted argv args :
  plot_sfc_variable.parse_arguments argv = Returned args ->
  omitted_are_default plot_sfc_variable.parser date cycle variable output levels
    "sfc_tot_pm25" argv args.
Proof. intros Hparse. omitted_default Hparse. Qed.

Lemma entire_atmosphere_omitted argv args :
  plot_entire_atmosphere_variable.parse_arguments argv = Returned args ->
  omitted_are_default plot_entire_atmosphere_variable.parser
    date cycle variable output levels "totAOD550" argv args.
Proof. intros Hparse. omitted_default Hparse. Qed.

Lemma halfdegree_omitted argv args :
  plot_halfdegree_data.parse_arguments argv = Returned args ->
  omitted_are_default plot_halfdegree_data.parser
    plot_halfdegree_data.date plot_halfdegree_data.cycle
    plot_halfdegree_data.variable plot_halfdegree_data.output
    plot_halfdegree_data.levels "sfc_tot_pm25" argv args.
Proof. intros Hparse. omitted_default Hparse. Qed.

End ParsersFacts.

(** ** The pipeline steps *)

(** The calls of a fetch: one [open_local], then one [open_dataset] if the
    object could be opened. *)
Ltac run_fetch :=
  unfold plot_sfc_variable.get_gefs_data,
    plot_entire_atmosphere_variable.get_gefs_data,
    plot_halfdegree_data.get_gefs_data, pd_Timestamp;
  match goal with
  | Hd : Timestamp ?s = _ |- _ => rewrite Hd
  | |- context [Timestamp ?s] => destruct (Timestamp s)
  end;
  unfold bind, pure, fsspec_open_local, xr_open_dataset, calls, result;
  cbn [fst snd app];
  repeat match goal with
         | |- context [open_local ?u] => destruct (open_local u); cbn [fst snd app]
         | |- context [open_dataset ?f ?x] =>
             destruct (open_dataset f x); cbn [fst snd app]
         end.

(** The calls of a plot *)
Ltac run_plot :=
  unfold plot_sfc_variable.create_plot,
    plot_entire_atmosphere_variable.create_plot,
    plot_halfdegree_data.create_plot;
  unfold bind, pure, monet_quick_imshow, ax_set_ylim, ax_set_xlim, monet_savefig,
    plt_show, calls, result;
  cbn [fst snd app].

Section ScriptFacts.
Context `{Externals}.




Lemma sel_no_match (surfaces : list (Q * grid)) model_level :
  (forall q g, In (q, g) surfaces -> ~ (inject_Z model_level == q)%Q) ->
  sel_valueOfFirstFixedSurface (Field3D surfaces) model_level = Raised LevelNotFound.
Proof.
  intros Hno. unfold sel_valueOfFirstFixedSurface.
  replace (filter _ surfaces) with (@nil (Q * grid)); [reflexivity |].
  symmetry. induction surfaces as [| [q g] rest IH]; [reflexivity |].
  simpl. destruct (Qeq_bool (inject_Z model_level) q) eqn:Heq.
  - exfalso. apply (Hno q g); [now left | now apply Qeq_bool_iff].
  - apply IH. intros q' g' Hin. apply (Hno q' g'). now right.
Qed.

Lemma requested_urls_app (t u : list event) :
  requested_urls (t ++ u) = requested_urls t ++ requested_urls u.
Proof. apply flat_map_app. Qed.


Lemma images_written_app (t u : list event) :
  images_written (t ++ u) = images_written t ++ images_written u.
Proof. apply flat_map_app. Qed.

Lemma sfc_requested_url date_str cycle variable d :
  Timestamp date_str = Some d ->
  requested_urls (calls (plot_sfc_variable.get_gefs_data date_str cycle variable))
  = [a2d_0p25_key (strftime_Ymd d) cycle].
Proof. intros Hd. run_fetch; reflexivity. Qed.

Lemma entire_atmosphere_requested_url date_str cycle variable d :
  Timestamp date_str = Some d ->
  requested_urls
    (calls (plot_entire_atmosphere_variable.get_gefs_data date_str cycle variable))
  = [a2d_0p25_key (strftime_Ymd d) cycle].
Proof. intros Hd. run_fetch; reflexivity. Qed.

Lemma halfdegree_requested_url date_str cycle variable d :
  Timestamp date_str = Some d ->
  requested_urls (calls (plot_halfdegree_data.get_gefs_data date_str cycle variable))
  = [a3d_key (strftime_Ymd d) cycle].
Proof. intros Hd. run_fetch; reflexivity. Qed.


Lemma fetch_writes_nothing date_str cycle variable :
  images_written (calls (plot_halfdegree_data.get_gefs_data date_str cycle variable)) = [].
Proof. run_fetch; reflexivity. Qed.




Lemma decode_filters_app (t u : list event) :
  decode_filters (t ++ u) = decode_filters t ++ decode_filters u.
Proof. apply flat_map_app. Qed.

(** The plot step opens and decodes nothing. *)
Lemma sfc_plot_fetches_nothing ds variable levels output_file :
  let t := calls (plot_sfc_variable.create_plot ds variable levels output_file) in
  requested_urls t = [] /\ decode_filters t = [].
Proof.
  run_plot. destruct (getitem ds variable); [| now split].
  destruct (quick_imshow _); [destruct (savefig _) |]; now split.
Qed.

Lemma entire_atmosphere_plot_fetches_nothing ds variable levels output_file :
  let t := calls (plot_entire_atmosphere_variable.create_plot
                    ds variable levels output_file) in
  requested_urls t = [] /\ decode_filters t = [].
Proof.
  run_plot. destruct (getitem ds variable); [| now split].
  destruct (quick_imshow _); [destruct (savefig _) |]; now split.
Qed.

Lemma halfdegree_plot_fetches_nothing ds variable model_level levels output_file :
  let t := calls (plot_halfdegree_data.create_plot
                    ds variable model_level levels output_file) in
  requested_urls t = [] /\ decode_filters t = [].
Proof.
  run_plot. destruct (getitem ds variable) as [da |]; [| now split].
  destruct (sel_valueOfFirstFixedSurface da model_level); [| now split].
  destruct (quick_imshow _); [destruct (savefig _) |]; now split.
Qed.

End ScriptFacts.

(** * Specification *)

Section Claims.
Context `{Externals}.

(** C1.  For a date string that the timestamp parser reads as a calendar date
    [d] in range, and a cycle among the four choices, the remote key each
    script opens is its path template with [d] written as the eight digits
    YYYYMMDD and the two-character cycle substituted; for "01-22-2025" read as
    22 January 2025 and cycle "12", the entire-atmosphere key ends with
    gefs.20250122/12/chem/pgrb2ap25/gefs.chem.t12z.a2d_0p25.f018.grib2. *)
Theorem remote_key_follows_template (date_str cycle variable : string)
  (d : calendar_date) :
  Timestamp date_str = Some d ->
  timestamp_in_bounds d ->
  In cycle cycle_choices ->
  requested_urls
    (calls (plot_entire_atmosphere_variable.get_gefs_data date_str cycle variable))
  = [a2d_0p25_key (eight_digits d) cycle]
  /\ requested_urls (calls (plot_sfc_variable.get_gefs_data date_str cycle variable))
     = [a2d_0p25_key (eight_digits d) cycle]
  /\ requested_urls (calls (plot_halfdegree_data.get_gefs_data date_str cycle variable))
     = [a3d_key (eight_digits d) cycle]
  /\ String.length (eight_digits d) = 8
  /\ Str.all Str.is_digit (eight_digits d) = true
  /\ String.length cycle = 2
  /\ (date_str = "01-22-2025" -> d = mkdate 2025 1 22 -> cycle = "12" ->
      exists key,
        requested_urls
          (calls (plot_entire_atmosphere_variable.get_gefs_data
                    "01-22-2025" "12" variable)) = [key]
        /\ Str.endswith key
             "gefs.20250122/12/chem/pgrb2ap25/gefs.chem.t12z.a2d_0p25.f018.grib2"
           = true).
Proof.
  intros Hd Hb Hc.
  pose proof (strftime_eight_digits d Hb) as Hfmt.
  pose proof (entire_atmosphere_requested_url date_str cycle variable d Hd) as He.
  rewrite Hfmt in He.
  split; [exact He |].
  split; [rewrite (sfc_requested_url _ _ _ _ Hd), Hfmt; reflexivity |].
  split; [rewrite (halfdegree_requested_url _ _ _ _ Hd), Hfmt; reflexivity |].
  split; [apply eight_digits_shape |].
  split; [apply eight_digits_shape |].
  split.
  - simpl in Hc. destruct Hc as [<- | [<- | [<- | [<- | []]]]]; reflexivity.
  - intros -> -> ->. eexists. split; [exact He | reflexivity].
Qed.

(** C3.  In the half-degree script, when the requested variable is a stack of
    surfaces and no coordinate value of the stack equals [model_level], the
    plot step raises [LevelNotFound] by label equality alone (other levels,
    however close, are not used) without calling the renderer or
    [savefig]; a run of [main] that reaches the plot step with such a dataset
    ends the same way and writes no image. *)
Theorem level_must_match_exactly (ds : Dataset grid) (variable : string)
  (model_level : Z) (surfaces : list (Q * grid)) :
  getitem ds variable = Returned (Field3D surfaces) ->
  (forall q g, In (q, g) surfaces -> ~ (inject_Z model_level == q)%Q) ->
  (forall levels output_file,
      plot_halfdegree_data.create_plot ds variable model_level levels output_file
      = ([], Raised LevelNotFound))
  /\ (forall argv args,
         plot_halfdegree_data.parse_arguments argv = Returned args ->
         plot_halfdegree_data.variable args = variable ->
         plot_halfdegree_data.model_level args = model_level ->
         result (plot_halfdegree_data.get_gefs_data
                   (plot_halfdegree_data.date args)
                   (plot_halfdegree_data.cycle args) variable) = Returned ds ->
         result (plot_halfdegree_data.main argv) = Raised LevelNotFound
         /\ images_written (calls (plot_halfdegree_data.main argv)) = []).
Proof.
  intros Hget Hno.
  assert (Hplot : forall levels output_file,
             plot_halfdegree_data.create_plot ds variable model_level levels output_file
             = ([], Raised LevelNotFound)).
  { intros levels output_file. run_plot.
    rewrite Hget. cbn [fst snd app]. rewrite (sel_no_match _ _ Hno). reflexivity. }
  split; [exact Hplot |].
  intros argv args Hparse Hv Hm Hfetch.
  unfold plot_halfdegree_data.main. rewrite Hparse, bind_pure_returned.
  rewrite Hv, Hm.
  rewrite result_bind, calls_bind, Hfetch, Hplot.
  split; [reflexivity |].
  unfold calls at 2. cbn [fst]. rewrite app_nil_r. apply fetch_writes_nothing.
Qed.


(** C8.  In every script the fetch step is the same for any two values of
    its [variable] argument: same calls (remote key, access options, decode
    filter) and same result.  Hence two accepted command lines of a script
    that agree on date and cycle open the same remote keys and decode with the
    same filters, whatever variables they name. *)
Theorem fetch_ignores_variable (date_str cycle_str variable1 variable2 : string) :
  (plot_sfc_variable.get_gefs_data date_str cycle_str variable1
   = plot_sfc_variable.get_gefs_data date_str cycle_str variable2
   /\ plot_entire_atmosphere_variable.get_gefs_data date_str cycle_str variable1
      = plot_entire_atmosphere_variable.get_gefs_data date_str cycle_str variable2
   /\ plot_halfdegree_data.get_gefs_data date_str cycle_str variable1
      = plot_halfdegree_data.get_gefs_data date_str cycle_str variable2)
  /\ (forall argv1 argv2 args1 args2,
         plot_sfc_variable.parse_arguments argv1 = Returned args1 ->
         plot_sfc_variable.parse_arguments argv2 = Returned args2 ->
         date args1 = date args2 -> cycle args1 = cycle args2 ->
         requested_urls (calls (plot_sfc_variable.main argv1))
         = requested_urls (calls (plot_sfc_variable.main argv2))
         /\ decode_filters (calls (plot_sfc_variable.main argv1))
            = decode_filters (calls (plot_sfc_variable.main argv2)))
  /\ (forall argv1 argv2 args1 args2,
         plot_entire_atmosphere_variable.parse_arguments argv1 = Returned args1 ->
         plot_entire_atmosphere_variable.parse_arguments argv2 = Returned args2 ->
         date args1 = date args2 -> cycle args1 = cycle args2 ->
         requested_urls (calls (plot_entire_atmosphere_variable.main argv1))
         = requested_urls (calls (plot_entire_atmosphere_variable.main argv2))
         /\ decode_filters (calls (plot_entire_atmosphere_variable.main argv1))
            = decode_filters (calls (plot_entire_atmosphere_variable.main argv2)))
  /\ (forall argv1 argv2 args1 args2,
         plot_halfdegree_data.parse_arguments argv1 = Returned args1 ->
         plot_halfdegree_data.parse_arguments argv2 = Returned args2 ->
         plot_halfdegree_data.date args1 = plot_halfdegree_data.date args2 ->
         plot_halfdegree_data.cycle args1 = plot_halfdegree_data.cycle args2 ->
         requested_urls (calls (plot_halfdegree_data.main argv1))
         = requested_urls (calls (plot_halfdegree_data.main argv2))
         /\ decode_filters (calls (plot_halfdegree_data.main argv1))
            = decode_filters (calls (plot_halfdegree_data.main argv2))).
Proof.
  split; [repeat split |].
  split; [| split].
  - intros argv1 argv2 args1 args2 H1 H2 Hd Hc.
    unfold plot_sfc_variable.main.
    rewrite H1, H2, !bind_pure_returned, !calls_bind.
    rewrite !requested_urls_app, !decode_filters_app, Hd, Hc.
    change (plot_sfc_variable.get_gefs_data (date args2) (cycle args2)
              (variable args1))
      with (plot_sfc_variable.get_gefs_data (date args2) (cycle args2)
              (variable args2)).
    destruct (result _) as [ds |]; [| now split].
    destruct (sfc_plot_fetches_nothing ds (variable args1) (levels args1)
                (output args1)) as (-> & ->).
    destruct (sfc_plot_fetches_nothing ds (variable args2) (levels args2)
                (output args2)) as (-> & ->).
    now split.
  - intros argv1 argv2 args1 args2 H1 H2 Hd Hc.
    unfold plot_entire_atmosphere_variable.main.
    rewrite H1, H2, !bind_pure_returned, !calls_bind.
    rewrite !requested_urls_app, !decode_filters_app, Hd, Hc.
    change (plot_entire_atmosphere_variable.get_gefs_data (date args2)
              (cycle args2) (variable args1))
      with (plot_entire_atmosphere_variable.get_gefs_data (date args2)
              (cycle args2) (variable args2)).
    destruct (result _) as [ds |]; [| now split].
    destruct (entire_atmosphere_plot_fetches_nothing ds (variable args1)
                (levels args1) (output args1)) as (-> & ->).
    destruct (entire_atmosphere_plot_fetches_nothing ds (variable args2)
                (levels args2) (output args2)) as (-> & ->).
    now split.
  - intros argv1 argv2 args1 args2 H1 H2 Hd Hc.
    unfold plot_halfdegree_data.main.
    rewrite H1, H2, !bind_pure_returned, !calls_bind.
    rewrite !requested_urls_app, !decode_filters_app, Hd, Hc.
    change (plot_halfdegree_data.get_gefs_data (plot_halfdegree_data.date args2)
              (plot_halfdegree_data.cycle args2)
              (plot_halfdegree_data.variable args1))
      with (plot_halfdegree_data.get_gefs_data (plot_halfdegree_data.date args2)
              (plot_halfdegree_data.cycle args2)
              (plot_halfdegree_data.variable args2)).
    destruct (result _) as [ds |]; [| now split].
    destruct (halfdegree_plot_fetches_nothing ds
                (plot_halfdegree_data.variable args1)
                (plot_halfdegree_data.model_level args1)
                (plot_halfdegree_data.levels args1)
                (plot_halfdegree_data.output args1)) as (-> & ->).
    destruct (halfdegree_plot_fetches_nothing ds
                (plot_halfdegree_data.variable args2)
                (plot_halfdegree_data.model_level args2)
                (plot_halfdegree_data.levels args2)
                (plot_halfdegree_data.output args2)) as (-> & ->).
    now split.
Qed.



(** C6.  When the variable is in the dataset and the renderer and [savefig]
    return, the plot step of the surface and entire-atmosphere scripts makes
    exactly these calls, in this order: [quick_imshow] on the selected array
    with the turbo colour map whose under-range colour is white, dateline
    rolling, the given levels and state boundaries switched on; the latitude
    limits 10 to 50; the longitude limits -130 to -90; [savefig] on the
    given output path; then [show].  The half-degree script does the same on
    the array selected at the model level. *)
Theorem renderer_calls (ds : Dataset grid) (variable : string)
  (levels : list (number pyfloat)) (output_file : string) (da : DataArray grid) :
  getitem ds variable = Returned da ->
  savefig output_file = true ->
  let drawing x :=
    mk_imshow_call x (mkColormap "turbo" (Some "white")) true levels true
      (10, 10)%Z in
  let trace x :=
    [ev_quick_imshow (drawing x); ev_set_ylim 10 50; ev_set_xlim (-130) (-90);
     ev_savefig output_file; ev_show] in
  (quick_imshow (drawing da) = true ->
   plot_sfc_variable.create_plot ds variable levels output_file
   = (trace da, Returned tt)
   /\ plot_entire_atmosphere_variable.create_plot ds variable levels output_file
      = (trace da, Returned tt))
  /\ (forall model_level da',
         sel_valueOfFirstFixedSurface da model_level = Returned da' ->
         quick_imshow (drawing da') = true ->
         plot_halfdegree_data.create_plot ds variable model_level levels output_file
         = (trace da', Returned tt)).
Proof.
  intros Hget Hsave drawing trace. split.
  - intros Hshow. subst drawing trace. cbv beta in Hshow.
    split; run_plot; rewrite Hget; cbn [fst snd app];
      unfold get_cmap, set_extremes; cbn [cmap_name];
      rewrite Hshow, Hsave; reflexivity.
  - intros model_level da' Hsel Hshow. subst drawing trace. cbv beta in Hshow.
    run_plot. rewrite Hget. cbn [fst snd app]. rewrite Hsel. cbn [fst snd app].
    unfold get_cmap, set_extremes; cbn [cmap_name].
    rewrite Hshow, Hsave. reflexivity.
Qed.

(** C7.  In every script, a namespace returned by [parse_arguments] holds,
    for each of date, cycle, variable, levels and output whose flag the
    command line does not use, the declared default: "01-22-2025", "12", the
    script's default variable ("sfc_tot_pm25" for the surface and half-degree
    scripts, "totAOD550" for the entire-atmosphere script),
    [1, 2, 4, 8, 16, 32, 64, 128] and "gefs_plot.jpg"; with an empty command
    line all five are the defaults. *)
Theorem defaults_for_omitted_flags (argv : list string) :
  (forall args,
      plot_sfc_variable.parse_arguments argv = Returned args ->
      omitted_are_default plot_sfc_variable.parser date cycle variable output
        levels "sfc_tot_pm25" argv args)
  /\ (forall args,
         plot_entire_atmosphere_variable.parse_arguments argv = Returned args ->
         omitted_are_default plot_entire_atmosphere_variable.parser
           date cycle variable output levels "totAOD550" argv args)
  /\ (forall args,
         plot_halfdegree_data.parse_arguments argv = Returned args ->
         omitted_are_default plot_halfdegree_data.parser
           plot_halfdegree_data.date plot_halfdegree_data.cycle
           plot_halfdegree_data.variable plot_halfdegree_data.output
           plot_halfdegree_data.levels "sfc_tot_pm25" argv args)
  /\ plot_sfc_variable.parse_arguments []
     = Returned (mkNamespace "01-22-2025" "12" "sfc_tot_pm25" default_levels
                   "gefs_plot.jpg")
  /\ plot_entire_atmosphere_variable.parse_arguments []
     = Returned (mkNamespace "01-22-2025" "12" "totAOD550" default_levels
                   "gefs_plot.jpg")
  /\ plot_halfdegree_data.parse_arguments []
     = Returned (plot_halfdegree_data.mkNamespace "01-22-2025" "12"
                   "sfc_tot_pm25" default_levels "gefs_plot.jpg" 1).
Proof.
  split; [exact (sfc_omitted argv) |].
  split; [exact (entire_atmosphere_omitted argv) |].
  split; [exact (halfdegree_omitted argv) |].
  repeat split.
Qed.

(** C9.  Whatever the arguments, every decode the entire-atmosphere script
    asks for carries the filter typeOfFirstFixedSurface=10,
    productDefinitionTemplateNumber=48, every decode of the surface script
    the filter typeOfFirstFixedSurface=1, productDefinitionTemplateNumber=48,
    and every decode of the half-degree script no filter; when the date parses
    and the object opens, each script asks for exactly one decode. *)
Theorem decode_filter_is_fixed (date_str cycle variable : string) :
  let column := Some [("typeOfFirstFixedSurface", 10%Z);
                      ("productDefinitionTemplateNumber", 48%Z)] in
  let surface := Some [("typeOfFirstFixedSurface", 1%Z);
                       ("productDefinitionTemplateNumber", 48%Z)] in
  let fetched get_gefs_data : list event :=
    calls (get_gefs_data date_str cycle variable : M (Dataset grid)) in
  Forall (eq column)
    (decode_filters (fetched plot_entire_atmosphere_variable.get_gefs_data))
  /\ Forall (eq surface) (decode_filters (fetched plot_sfc_variable.get_gefs_data))
  /\ Forall (eq None) (decode_filters (fetched plot_halfdegree_data.get_gefs_data))
  /\ (forall d file1 file2,
         Timestamp date_str = Some d ->
         open_local (a2d_0p25_key (strftime_Ymd d) cycle) = inr file1 ->
         open_local (a3d_key (strftime_Ymd d) cycle) = inr file2 ->
         decode_filters (fetched plot_entire_atmosphere_variable.get_gefs_data)
         = [column]
         /\ decode_filters (fetched plot_sfc_variable.get_gefs_data) = [surface]
         /\ decode_filters (fetched plot_halfdegree_data.get_gefs_data) = [None]).
Proof.
  intros column surface fetched. subst column surface fetched. cbv beta.
  split; [| split; [| split]].
  - run_fetch; repeat constructor.
  - run_fetch; repeat constructor.
  - run_fetch; repeat constructor.
  - intros d file1 file2 Hd H1 H2. unfold a2d_0p25_key in H1. unfold a3d_key in H2.
    repeat split;
      unfold plot_sfc_variable.get_gefs_data,
        plot_entire_atmosphere_variable.get_gefs_data,
        plot_halfdegree_data.get_gefs_data, pd_Timestamp;
      rewrite Hd;
      unfold bind, pure, fsspec_open_local, xr_open_dataset, calls, result;
      cbn [fst snd app]; rewrite ?H1, ?H2; reflexivity.
Qed.

End Claims.

(** * Concrete runs

    The statements above, evaluated on command lines in the closed [World]. *)

Lemma remote_key_follows_template_witness :
  requested_urls
    (calls (plot_entire_atmosphere_variable.get_gefs_data (H := World.externals)
              "01-22-2025" "12" "totAOD550"))
  = ["simplecache::s3://noaa-gefs-pds/gefs.20250122/12/chem/pgrb2ap25/gefs.chem.t12z.a2d_0p25.f018.grib2"].
Proof.
  assert (Hb : timestamp_in_bounds (mkdate 2025 1 22)).
  { unfold timestamp_in_bounds. simpl. lia. }
  assert (Hc : In "12" cycle_choices) by (simpl; tauto).
  exact (proj1 (remote_key_follows_template (H := World.externals)
                  "01-22-2025" "12" "totAOD550" (mkdate 2025 1 22)
                  eq_refl Hb Hc)).
Defined.

Lemma level_must_match_exactly_witness :
  result (plot_halfdegree_data.main (H := World.externals)
            ["--variable"; "so4_pm139"; "--model_level"; "1"])
  = Raised LevelNotFound
  /\ images_written
       (calls (plot_halfdegree_data.main (H := World.externals)
                 ["--variable"; "so4_pm139"; "--model_level"; "1"])) = [].
Proof.
  assert (Hno : forall (q : Q) (g : nat),
             In (q, g) [(inject_Z 2, 3); (inject_Z 5, 4); (inject_Z 10, 5)] ->
             ~ (inject_Z 1 == q)%Q).
  { intros q g Hin. simpl in Hin.
    destruct Hin as [[= <- _] | [[= <- _] | [[= <- _] | []]]];
      unfold Qeq; simpl; lia. }
  exact (proj2 (level_must_match_exactly (H := World.externals)
                  World.decoded "so4_pm139" 1
                  [(inject_Z 2, 3); (inject_Z 5, 4); (inject_Z 10, 5)]
                  eq_refl Hno)
           ["--variable"; "so4_pm139"; "--model_level"; "1"]
           (plot_halfdegree_data.mkNamespace (H := World.externals)
              "01-22-2025" "12" "so4_pm139" default_levels "gefs_plot.jpg" 1)
           eq_refl eq_refl eq_refl eq_refl).
Defined.







Lemma renderer_calls_witness :
  plot_sfc_variable.create_plot (H := World.externals) World.decoded
    "sfc_tot_pm25" default_levels "gefs_plot.jpg"
  = ([ev_quick_imshow (H := World.externals)
        (mk_imshow_call (Field2D 1) (mkColormap "turbo" (Some "white")) true
           default_levels true (10, 10)%Z);
      ev_set_ylim 10 50; ev_set_xlim (-130) (-90);
      ev_savefig "gefs_plot.jpg"; ev_show],
     Returned tt).
Proof.
  exact (proj1 (proj1 (renderer_calls (H := World.externals) World.decoded
                         "sfc_tot_pm25" default_levels "gefs_plot.jpg"
                         (Field2D 1) eq_refl eq_refl)
                  eq_refl)).
Defined.

Lemma defaults_for_omitted_flags_witness :
  exists args,
    plot_sfc_variable.parse_arguments (H := World.externals) ["--cycle"; "06"]
    = Returned args
    /\ cycle args = "06"
    /\ date args = "01-22-2025"
    /\ variable args = "sfc_tot_pm25"
    /\ levels args = default_levels
    /\ output args = "gefs_plot.jpg".
Proof.
  exists (mkNamespace (H := World.externals) "01-22-2025" "06" "sfc_tot_pm25"
            default_levels "gefs_plot.jpg").
  destruct (proj1 (defaults_for_omitted_flags (H := World.externals)
                     ["--cycle"; "06"])
              (mkNamespace (H := World.externals) "01-22-2025" "06"
                 "sfc_tot_pm25" default_levels "gefs_plot.jpg")
              eq_refl)
    as (Hdate & _ & Hvariable & Hlevels & Houtput).
  exact (conj eq_refl
           (conj eq_refl
              (conj (Hdate eq_refl)
                 (conj (Hvariable eq_refl)
                    (conj (Hlevels eq_refl) (Houtput eq_refl)))))).
Defined.

Lemma decode_filter_is_fixed_witness :
  decode_filters
    (calls (plot_entire_atmosphere_variable.get_gefs_data (H := World.externals)
              "01-22-2025" "12" "totAOD550"))
  = [Some [("typeOfFirstFixedSurface", 10%Z);
           ("productDefinitionTemplateNumber", 48%Z)]].
Proof.
  exact (proj1 (proj2 (proj2 (proj2
           (decode_filter_is_fixed (H := World.externals)
              "01-22-2025" "12" "totAOD550")))
           (mkdate 2025 1 22) _ _ eq_refl eq_refl eq_refl)).
Defined.

Lemma fetch_ignores_variable_witness :
  requested_urls
    (calls (plot_sfc_variable.main (H := World.externals)
              ["--variable"; "sfc_du_pm10"]))
  = requested_urls
      (calls (plot_sfc_variable.main (H := World.externals)
                ["--variable"; "sfc_tot_pm25"; "--output"; "b.png"]))
  /\ decode_filters
       (calls (plot_sfc_variable.main (H := World.externals)
                 ["--variable"; "sfc_du_pm10"]))
     = decode_filters
         (calls (plot_sfc_variable.main (H := World.externals)
                   ["--variable"; "sfc_tot_pm25"; "--output"; "b.png"])).
Proof.
  exact (proj1 (proj2 (fetch_ignores_variable (H := World.externals)
                         "01-22-2025" "12" "sfc_du_pm10" "sfc_tot_pm25"))
           ["--variable"; "sfc_du_pm10"]
           ["--variable"; "sfc_tot_pm25"; "--output"; "b.png"]
           (mkNamespace (H := World.externals) "01-22-2025" "12" "sfc_du_pm10"
              default_levels "gefs_plot.jpg")
           (mkNamespace (H := World.externals) "01-22-2025" "12" "sfc_tot_pm25"
              default_levels "b.png")
           eq_refl eq_refl eq_refl eq_refl).
Defined.

(** * Further properties *)

(** ** Command lines put together *)

Section ParserComposition.
Context {F NS : Type}.
Variable float : string -> option F.
Variable int : string -> option Z.
Variable parser : list (argparse.Action (F := F) (NS := NS)).

Local Abbreviation pstate := (argparse.pstate (F := F) (NS := NS)).
Local Abbreviation osa := (argparse.option_string_actions parser).
Local Abbreviation init ns0 :=
  (argparse.mkpstate (fold_left argparse.set_default parser ns0) [] None).

(** No positional arguments: a leading string that is empty or does not
    begin with a dash loses the command line. *)
Lemma positional_is_fatal v rest ns0 :
  v = "" \/ plain v = true ->
  exists e, argparse.parse_args float int parser (v :: rest) ns0 = Raised e.
Proof.
  intros Hv. rewrite parse_args_unfold. remember rest as r eqn:Hr.
  cbn [argparse.lex].
  assert (Hlex : String.eqb v "--" = false
                 /\ argparse.parse_optional parser v = Returned (argparse.tok_A v)).
  { destruct Hv as [-> | Hp]; [now split |].
    destruct (plain_is_argument parser v Hp). now split. }
  destruct Hlex as (-> & ->). cbn [obind].
  destruct (argparse.lex parser r) as [ts |]; [| now eexists].
  cbn [obind]. unfold argparse.run. cbn [argparse.steps argparse.step
                                           argparse.pending obind].
  apply leftovers_are_fatal. simpl. discriminate.
Qed.

(** A string option given once more at the end replaces its value and
    nothing else. *)
Lemma parse_args_append flag_tail d choices df set v argv ns0 n :
  let flag := String "-" flag_tail in
  argparse.assoc flag osa = Some (argparse.StoreStr d choices df set) ->
  String.eqb flag "--" = false ->
  plain v = true ->
  match choices with Some cs => Str.mem v cs = true | None => True end ->
  argparse.parse_args float int parser argv ns0 = Returned n ->
  argparse.parse_args float int parser (argv ++ [flag; v]) ns0
  = Returned (set v n).
Proof.
  intros flag Hreg Hsep Hv Hchoice Hparse.
  apply parse_args_state in Hparse as (Hno & ts & st0 & Hlex & Hsteps & Hflush).
  rewrite parse_args_unfold, (lex_app parser argv _ Hno), Hlex. cbn [obind].
  destruct (plain_is_argument parser v Hv) as (Hpv & Hdv).
  assert (Htail : argparse.lex parser [flag; v]
                  = Returned [argparse.tok_O
                                (Some (argparse.StoreStr d choices df set)) flag None;
                              argparse.tok_A v]).
  { cbn [argparse.lex]. rewrite Hsep, Hdv, Hpv.
    unfold argparse.parse_optional. unfold flag at 1 2. fold flag. rewrite Hreg.
    reflexivity. }
  rewrite Htail. cbn [obind]. unfold argparse.run.
  rewrite steps_app, Hsteps. cbn [obind argparse.steps argparse.step].
  rewrite Hflush. cbn [obind argparse.ns argparse.extras argparse.pending app].
  unfold argparse.store. cbn [argparse.remove_dashdash]. rewrite Hdv.
  destruct choices as [cs |]; [rewrite Hchoice |]; reflexivity.
Qed.

(** The first value of [--levels] that [float] refuses is reported and the
    command line is lost. *)
Lemma get_floats_first_bad o good fs bad rest :
  Forall2 (fun v f => float v = Some f) good fs ->
  float bad = None ->
  argparse.get_floats float o (good ++ bad :: rest)
  = Raised (InvalidArgument (invalid_value o bad)).
Proof.
  induction 1 as [| v f good fs Hv _ IH]; intros Hbad; simpl.
  - now rewrite Hbad.
  - now rewrite Hv, IH.
Qed.

Lemma parse_levels_first_bad flag_tail d df set good fs bad rest ns0 :
  let flag := String "-" flag_tail in
  argparse.assoc flag osa = Some (argparse.StoreFloats d df set) ->
  String.eqb flag "--" = false ->
  forallb plain (good ++ bad :: rest) = true ->
  Forall2 (fun v f => float v = Some f) good fs ->
  float bad = None ->
  argparse.parse_args float int parser (flag :: good ++ bad :: rest) ns0
  = Raised (InvalidArgument (invalid_value flag bad)).
Proof.
  intros flag Hreg Hsep Hplain Hconv Hbad.
  unfold argparse.parse_args, argparse.parse_known_args.
  remember (good ++ bad :: rest) as vs eqn:Hvs.
  cbn [argparse.lex]. rewrite Hsep.
  unfold argparse.parse_optional. unfold flag at 1 2. fold flag. rewrite Hreg.
  cbn [negb Ascii.eqb Bool.eqb obind].
  rewrite (lex_plain parser vs Hplain). cbn [obind].
  unfold argparse.run. cbn [argparse.steps argparse.step argparse.flush
                             argparse.pending obind].
  erewrite steps_collect by reflexivity.
  cbn [obind argparse.flush argparse.pending argparse.ns argparse.extras app].
  unfold argparse.store. rewrite (remove_dashdash_plain parser vs Hplain).
  assert (Hne : vs <> []) by (subst vs; now destruct good).
  destruct vs as [| v0 vs0]; [contradiction |].
  rewrite Hvs, (get_floats_first_bad _ _ _ _ _ Hconv Hbad). reflexivity.
Qed.

End ParserComposition.

Section ParserOptions.
Context {F NS : Type}.
Variable float : string -> option F.
Variable int : string -> option Z.
Variable parser : list (argparse.Action (F := F) (NS := NS)).

Local Abbreviation pstate := (argparse.pstate (F := F) (NS := NS)).
Local Abbreviation osa := (argparse.option_string_actions parser).

Lemma lex_registered flag_tail a :
  let flag := String "-" flag_tail in
  argparse.assoc flag osa = Some a ->
  argparse.parse_optional parser flag
  = Returned (argparse.tok_O (Some a) flag None).
Proof.
  intros flag Hreg. unfold argparse.parse_optional. unfold flag at 1 2.
  fold flag. now rewrite Hreg.
Qed.

(** An integer option given at the end of an accepted command line stores
    what [int] makes of its value, or refuses the value. *)
Lemma parse_args_append_int flag_tail d df set v argv ns0 n :
  let flag := String "-" flag_tail in
  argparse.assoc flag osa = Some (argparse.StoreInt d df set) ->
  String.eqb flag "--" = false ->
  plain v = true ->
  argparse.parse_args float int parser argv ns0 = Returned n ->
  argparse.parse_args float int parser (argv ++ [flag; v]) ns0
  = match int v with
    | Some z => Returned (set z n)
    | None => Raised (InvalidArgument (invalid_value flag v))
    end.
Proof.
  intros flag Hreg Hsep Hv Hparse.
  apply parse_args_state in Hparse as (Hno & ts & st0 & Hlex & Hsteps & Hflush).
  rewrite parse_args_unfold, (lex_app parser argv _ Hno), Hlex. cbn [obind].
  destruct (plain_is_argument parser v Hv) as (Hpv & Hdv).
  assert (Htail : argparse.lex parser [flag; v]
                  = Returned [argparse.tok_O
                                (Some (argparse.StoreInt d df set)) flag None;
                              argparse.tok_A v]).
  { cbn [argparse.lex]. rewrite Hsep, Hdv, Hpv.
    change (argparse.parse_optional parser flag)
      with (argparse.parse_optional parser (String "-" flag_tail)).
    rewrite (lex_registered flag_tail _ Hreg). reflexivity. }
  rewrite Htail. cbn [obind]. unfold argparse.run.
  rewrite steps_app, Hsteps. cbn [obind argparse.steps argparse.step].
  rewrite Hflush. cbn [obind argparse.ns argparse.extras argparse.pending app].
  unfold argparse.store. cbn [argparse.remove_dashdash]. rewrite Hdv.
  now destruct (int v).
Qed.

(** An option that ends the command line takes no value and is refused. *)
Lemma trailing_option_is_fatal flag_tail a pre :
  let flag := String "-" flag_tail in
  argparse.assoc flag osa = Some a ->
  forall ts (st : pstate),
    argparse.lex parser (pre ++ [flag]) = Returned ts ->
    exists e, (st' <- argparse.run float int ts st ;; finish st') = Raised e.
Proof.
  intros flag Hreg. subst flag. induction pre as [| p pre IH]; intros ts st.
  - cbn [app argparse.lex].
    destruct (String.eqb (String "-" flag_tail) "--").
    + intros [= <-]. unfold argparse.run. cbn [argparse.steps argparse.step].
      destruct (argparse.flush float int st) as [st1 |]; [| now eexists].
      cbn [obind].
      refine (leftovers_are_fatal float int []
                (argparse.mkpstate (argparse.ns st1)
                   (argparse.extras st1 ++ ["--"]) None) _).
      simpl. destruct (argparse.extras st1); discriminate.
    + rewrite (lex_registered flag_tail _ Hreg). cbn [obind]. intros [= <-].
      unfold argparse.run. cbn [argparse.steps argparse.step].
      destruct (argparse.flush float int st) as [st1 |]; [| destruct a; now eexists].
      destruct a; cbn [obind]; try (now eexists);
        unfold argparse.flush; cbn [argparse.pending argparse.store obind];
        now eexists.
  - cbn [app]. remember (pre ++ [String "-" flag_tail]) as rest eqn:Hrest.
    cbn [argparse.lex].
    destruct (String.eqb p "--").
    + intros [= <-]. unfold argparse.run. cbn [argparse.steps argparse.step].
      destruct (argparse.flush float int st) as [st1 |]; [| now eexists].
      cbn [obind]. apply leftovers_are_fatal. simpl.
      destruct (argparse.extras st1); discriminate.
    + destruct (argparse.parse_optional parser p) as [t |]; [| discriminate].
      cbn [obind].
      destruct (argparse.lex parser rest) as [ts' |] eqn:Hl; [| discriminate].
      cbn [obind]. intros [= <-]. unfold argparse.run. cbn [argparse.steps].
      destruct (argparse.step float int st t) as [st1 |]; [| now eexists].
      cbn [obind]. exact (IH ts' st1 eq_refl).
Qed.

Lemma parse_args_trailing_option flag_tail a pre ns0 :
  argparse.assoc (String "-" flag_tail) osa = Some a ->
  exists e,
    argparse.parse_args float int parser (pre ++ [String "-" flag_tail]) ns0
    = Raised e.
Proof.
  intros Hreg. rewrite parse_args_unfold.
  destruct (argparse.lex parser (pre ++ [String "-" flag_tail])) as [ts |] eqn:Hl;
    [| now eexists].
  cbn [obind]. eapply trailing_option_is_fatal; eauto.
Qed.

Lemma get_floats_length o args fs :
  argparse.get_floats float o args = Returned fs ->
  List.length fs = List.length args.
Proof.
  revert fs. induction args as [| v args IH]; intros fs; simpl.
  - now intros [= <-].
  - destruct (float v); [| discriminate].
    destruct (argparse.get_floats float o args) as [fs' |]; [| discriminate].
    cbn [obind]. intros [= <-]. simpl. f_equal. now apply IH.
Qed.

End ParserOptions.

(** ** Runs of the pipeline *)

Ltac open_main :=
  unfold plot_sfc_variable.main, plot_entire_atmosphere_variable.main,
    plot_halfdegree_data.main.

Ltac open_steps :=
  unfold plot_sfc_variable.get_gefs_data,
    plot_entire_atmosphere_variable.get_gefs_data,
    plot_halfdegree_data.get_gefs_data,
    plot_sfc_variable.create_plot,
    plot_entire_atmosphere_variable.create_plot,
    plot_halfdegree_data.create_plot,
    pd_Timestamp, bind, pure, fsspec_open_local, xr_open_dataset,
    monet_quick_imshow, ax_set_ylim, ax_set_xlim, monet_savefig, plt_show,
    get_cmap, set_extremes, calls, result;
  cbn [fst snd app cmap_name].

Ltac crack :=
  repeat (match goal with
          | |- context [Timestamp ?s] => destruct (Timestamp s)
          | |- context [open_local ?u] => destruct (open_local u)
          | |- context [open_dataset ?f ?x] => destruct (open_dataset f x)
          | |- context [getitem ?d ?v] => destruct (getitem d v)
          | |- context [sel_valueOfFirstFixedSurface ?a ?l] =>
              destruct (sel_valueOfFirstFixedSurface a l)
          | |- context [quick_imshow ?c] => destruct (quick_imshow c)
          | |- context [savefig ?p] => destruct (savefig p)
          end; cbn [fst snd app]).

Section Runs.
Context `{Externals}.

(** X1.  Whatever the command line and whatever the collaborators answer, the
    calls of a run are an initial part of: open the remote object, decode it,
    draw, set the latitude limits, set the longitude limits, save, show; each
    is made at most once and never out of turn. *)
Theorem runs_follow_pipeline_order (argv : list string) :
  in_pipeline_order (calls (plot_sfc_variable.main argv))
  /\ in_pipeline_order (calls (plot_entire_atmosphere_variable.main argv))
  /\ in_pipeline_order (calls (plot_halfdegree_data.main argv)).
Proof.
  unfold in_pipeline_order. repeat split; open_main.
  - destruct (plot_sfc_variable.parse_arguments argv) as [args |];
      [rewrite bind_pure_returned | reflexivity].
    open_steps. crack; reflexivity.
  - destruct (plot_entire_atmosphere_variable.parse_arguments argv) as [args |];
      [rewrite bind_pure_returned | reflexivity].
    open_steps. crack; reflexivity.
  - destruct (plot_halfdegree_data.parse_arguments argv) as [args |];
      [rewrite bind_pure_returned | reflexivity].
    open_steps. crack; reflexivity.
Qed.

(** X2.  A date string that the timestamp parser refuses ends the run with
    that failure before anything is requested from the store. *)
Theorem unreadable_date_stops_before_fetch (argv : list string) :
  (forall args,
      plot_sfc_variable.parse_arguments argv = Returned args ->
      Timestamp (date args) = None ->
      plot_sfc_variable.main argv = ([], Raised InvalidDate))
  /\ (forall args,
         plot_entire_atmosphere_variable.parse_arguments argv = Returned args ->
         Timestamp (date args) = None ->
         plot_entire_atmosphere_variable.main argv = ([], Raised InvalidDate))
  /\ (forall args,
         plot_halfdegree_data.parse_arguments argv = Returned args ->
         Timestamp (plot_halfdegree_data.date args) = None ->
         plot_halfdegree_data.main argv = ([], Raised InvalidDate)).
Proof.
  repeat split; intros args Hparse Hdate; open_main;
    rewrite Hparse, bind_pure_returned; open_steps; rewrite Hdate; reflexivity.
Qed.

(** X3.  When the store cannot hand over the object, the run ends with the
    store's failure (object absent or network failure) after that single
    request, made anonymously: nothing is decoded, drawn or written, and the
    request is not repeated. *)
Theorem fetch_failure_ends_the_run (argv : list string) (d : calendar_date)
  (f : fetch_failure) :
  (forall args,
      plot_sfc_variable.parse_arguments argv = Returned args ->
      Timestamp (date args) = Some d ->
      open_local (a2d_0p25_key (strftime_Ymd d) (cycle args)) = inl f ->
      plot_sfc_variable.main argv
      = ([ev_open_local (a2d_0p25_key (strftime_Ymd d) (cycle args)) true
            "/tmp/files"],
         Raised (exn_of_fetch f)))
  /\ (forall args,
         plot_entire_atmosphere_variable.parse_arguments argv = Returned args ->
         Timestamp (date args) = Some d ->
         open_local (a2d_0p25_key (strftime_Ymd d) (cycle args)) = inl f ->
         plot_entire_atmosphere_variable.main argv
         = ([ev_open_local (a2d_0p25_key (strftime_Ymd d) (cycle args)) true
               "/tmp/files"],
            Raised (exn_of_fetch f)))
  /\ (forall args,
         plot_halfdegree_data.parse_arguments argv = Returned args ->
         Timestamp (plot_halfdegree_data.date args) = Some d ->
         open_local (a3d_key (strftime_Ymd d) (plot_halfdegree_data.cycle args))
         = inl f ->
         plot_halfdegree_data.main argv
         = ([ev_open_local
               (a3d_key (strftime_Ymd d) (plot_halfdegree_data.cycle args)) true
               "/tmp/files"],
            Raised (exn_of_fetch f))).
Proof.
  repeat split; intros args Hparse Hdate Hopen; open_main;
    rewrite Hparse, bind_pure_returned; open_steps; rewrite Hdate;
    cbn [fst snd app]; unfold a2d_0p25_key, a3d_key in *;
    rewrite Hopen; reflexivity.
Qed.

(** X4.  When the object is fetched but the decoder raises, the run ends with
    [DecodeError] after the fetch and the one decode request (engine grib2io
    with the script's filter); nothing is drawn or written. *)
Theorem decode_failure_ends_the_run (argv : list string) (d : calendar_date)
  (file : LocalFile) :
  let column := Some [("typeOfFirstFixedSurface", 10%Z);
                      ("productDefinitionTemplateNumber", 48%Z)] in
  let surface := Some [("typeOfFirstFixedSurface", 1%Z);
                       ("productDefinitionTemplateNumber", 48%Z)] in
  (forall args,
      plot_sfc_variable.parse_arguments argv = Returned args ->
      Timestamp (date args) = Some d ->
      open_local (a2d_0p25_key (strftime_Ymd d) (cycle args)) = inr file ->
      open_dataset file surface = None ->
      plot_sfc_variable.main argv
      = ([ev_open_local (a2d_0p25_key (strftime_Ymd d) (cycle args)) true
            "/tmp/files";
          ev_open_dataset file "grib2io" surface],
         Raised DecodeError))
  /\ (forall args,
         plot_entire_atmosphere_variable.parse_arguments argv = Returned args ->
         Timestamp (date args) = Some d ->
         open_local (a2d_0p25_key (strftime_Ymd d) (cycle args)) = inr file ->
         open_dataset file column = None ->
         plot_entire_atmosphere_variable.main argv
         = ([ev_open_local (a2d_0p25_key (strftime_Ymd d) (cycle args)) true
               "/tmp/files";
             ev_open_dataset file "grib2io" column],
            Raised DecodeError))
  /\ (forall args,
         plot_halfdegree_data.parse_arguments argv = Returned args ->
         Timestamp (plot_halfdegree_data.date args) = Some d ->
         open_local (a3d_key (strftime_Ymd d) (plot_halfdegree_data.cycle args))
         = inr file ->
         open_dataset file None = None ->
         plot_halfdegree_data.main argv
         = ([ev_open_local
               (a3d_key (strftime_Ymd d) (plot_halfdegree_data.cycle args)) true
               "/tmp/files";
             ev_open_dataset file "grib2io" None],
            Raised DecodeError)).
Proof.
  intros column surface. subst column surface.
  repeat split; intros args Hparse Hdate Hopen Hdecode; open_main;
    rewrite Hparse, bind_pure_returned; open_steps; rewrite Hdate;
    cbn [fst snd app]; unfold a2d_0p25_key, a3d_key in *;
    rewrite Hopen; cbn [fst snd app]; rewrite Hdecode; reflexivity.
Qed.

(** X5.  With the dataset fetched and the variable in it, a renderer that
    raises ends the run with [RenderError] right after the drawing request:
    no limits are set, nothing is saved or shown.  A [savefig] that raises
    ends it with [SaveError] and the display is never opened.  (The
    half-degree script likewise, on the array selected at the model
    level.) *)
Theorem render_and_save_failures_end_the_run (argv : list string)
  (t : list event) (ds : Dataset grid) (da : DataArray grid) :
  let drawing lv x :=
    mk_imshow_call x (mkColormap "turbo" (Some "white")) true lv true
      (10, 10)%Z in
  (forall args,
      plot_sfc_variable.parse_arguments argv = Returned args ->
      plot_sfc_variable.get_gefs_data (date args) (cycle args) (variable args)
      = (t, Returned ds) ->
      getitem ds (variable args) = Returned da ->
      (quick_imshow (drawing (levels args) da) = false ->
       plot_sfc_variable.main argv
       = (t ++ [ev_quick_imshow (drawing (levels args) da)], Raised RenderError))
      /\ (quick_imshow (drawing (levels args) da) = true ->
          savefig (output args) = false ->
          plot_sfc_variable.main argv
          = (t ++ [ev_quick_imshow (drawing (levels args) da);
                   ev_set_ylim 10 50; ev_set_xlim (-130) (-90);
                   ev_savefig (output args)],
             Raised SaveError)))
  /\ (forall args,
         plot_entire_atmosphere_variable.parse_arguments argv = Returned args ->
         plot_entire_atmosphere_variable.get_gefs_data
           (date args) (cycle args) (variable args) = (t, Returned ds) ->
         getitem ds (variable args) = Returned da ->
         (quick_imshow (drawing (levels args) da) = false ->
          plot_entire_atmosphere_variable.main argv
          = (t ++ [ev_quick_imshow (drawing (levels args) da)],
             Raised RenderError))
         /\ (quick_imshow (drawing (levels args) da) = true ->
             savefig (output args) = false ->
             plot_entire_atmosphere_variable.main argv
             = (t ++ [ev_quick_imshow (drawing (levels args) da);
                      ev_set_ylim 10 50; ev_set_xlim (-130) (-90);
                      ev_savefig (output args)],
                Raised SaveError)))
  /\ (forall args da',
         plot_halfdegree_data.parse_arguments argv = Returned args ->
         plot_halfdegree_data.get_gefs_data
           (plot_halfdegree_data.date args) (plot_halfdegree_data.cycle args)
           (plot_halfdegree_data.variable args) = (t, Returned ds) ->
         getitem ds (plot_halfdegree_data.variable args) = Returned da ->
         sel_valueOfFirstFixedSurface da (plot_halfdegree_data.model_level args)
         = Returned da' ->
         (quick_imshow (drawing (plot_halfdegree_data.levels args) da') = false ->
          plot_halfdegree_data.main argv
          = (t ++ [ev_quick_imshow
                     (drawing (plot_halfdegree_data.levels args) da')],
             Raised RenderError))
         /\ (quick_imshow (drawing (plot_halfdegree_data.levels args) da') = true ->
             savefig (plot_halfdegree_data.output args) = false ->
             plot_halfdegree_data.main argv
             = (t ++ [ev_quick_imshow
                        (drawing (plot_halfdegree_data.levels args) da');
                      ev_set_ylim 10 50; ev_set_xlim (-130) (-90);
                      ev_savefig (plot_halfdegree_data.output args)],
                Raised SaveError))).
Proof.
  intros drawing. subst drawing. cbv beta.
  split; [| split].
  - intros args Hparse Hfetch Hget.
    assert (Hmain : plot_sfc_variable.main argv
                    = (let (t', r) :=
                         plot_sfc_variable.create_plot ds (variable args) (levels args) (output args) in
                       (t ++ t', r))).
    { open_main. rewrite Hparse, bind_pure_returned. unfold bind at 1.
      rewrite Hfetch. reflexivity. }
    rewrite Hmain. unfold plot_sfc_variable.create_plot.
    rewrite Hget, bind_pure_returned.
    split.
    + intros Hdraw. open_steps. rewrite Hdraw. reflexivity.
    + intros Hdraw Hsave. open_steps. rewrite Hdraw, Hsave. reflexivity.
  - intros args Hparse Hfetch Hget.
    assert (Hmain : plot_entire_atmosphere_variable.main argv
                    = (let (t', r) :=
                         plot_entire_atmosphere_variable.create_plot ds (variable args) (levels args) (output args) in
                       (t ++ t', r))).
    { open_main. rewrite Hparse, bind_pure_returned. unfold bind at 1.
      rewrite Hfetch. reflexivity. }
    rewrite Hmain. unfold plot_entire_atmosphere_variable.create_plot.
    rewrite Hget, bind_pure_returned.
    split.
    + intros Hdraw. open_steps. rewrite Hdraw. reflexivity.
    + intros Hdraw Hsave. open_steps. rewrite Hdraw, Hsave. reflexivity.
  - intros args da' Hparse Hfetch Hget Hsel.
    assert (Hmain : plot_halfdegree_data.main argv
                    = (let (t', r) :=
                         plot_halfdegree_data.create_plot ds
                           (plot_halfdegree_data.variable args)
                           (plot_halfdegree_data.model_level args)
                           (plot_halfdegree_data.levels args)
                           (plot_halfdegree_data.output args) in
                       (t ++ t', r))).
    { open_main. rewrite Hparse, bind_pure_returned. unfold bind at 1.
      rewrite Hfetch. reflexivity. }
    rewrite Hmain. unfold plot_halfdegree_data.create_plot.
    rewrite Hget, bind_pure_returned, Hsel, bind_pure_returned.
    split.
    + intros Hdraw. open_steps. rewrite Hdraw. reflexivity.
    + intros Hdraw Hsave. open_steps. rewrite Hdraw, Hsave. reflexivity.
Qed.

(** X6.  When every collaborator answers, a run is exactly: one anonymous
    request for the key of the parsed date and cycle, one decode of the file
    got with engine grib2io and the script's filter, one drawing of the
    requested variable with the requested levels, the two axis limits, one
    [savefig] on the requested output path, one [show]; and [main]
    returns. *)
Theorem successful_run (argv : list string) (d : calendar_date)
  (file : LocalFile) (ds : Dataset grid) (da : DataArray grid) :
  let drawing lv x :=
    mk_imshow_call x (mkColormap "turbo" (Some "white")) true lv true
      (10, 10)%Z in
  let column := Some [("typeOfFirstFixedSurface", 10%Z);
                      ("productDefinitionTemplateNumber", 48%Z)] in
  let surface := Some [("typeOfFirstFixedSurface", 1%Z);
                       ("productDefinitionTemplateNumber", 48%Z)] in
  (forall args,
      plot_sfc_variable.parse_arguments argv = Returned args ->
      Timestamp (date args) = Some d ->
      open_local (a2d_0p25_key (strftime_Ymd d) (cycle args)) = inr file ->
      open_dataset file surface = Some ds ->
      getitem ds (variable args) = Returned da ->
      quick_imshow (drawing (levels args) da) = true ->
      savefig (output args) = true ->
      plot_sfc_variable.main argv
      = ([ev_open_local (a2d_0p25_key (strftime_Ymd d) (cycle args)) true
            "/tmp/files";
          ev_open_dataset file "grib2io" surface;
          ev_quick_imshow (drawing (levels args) da);
          ev_set_ylim 10 50; ev_set_xlim (-130) (-90);
          ev_savefig (output args); ev_show],
         Returned tt))
  /\ (forall args,
         plot_entire_atmosphere_variable.parse_arguments argv = Returned args ->
         Timestamp (date args) = Some d ->
         open_local (a2d_0p25_key (strftime_Ymd d) (cycle args)) = inr file ->
         open_dataset file column = Some ds ->
         getitem ds (variable args) = Returned da ->
         quick_imshow (drawing (levels args) da) = true ->
         savefig (output args) = true ->
         plot_entire_atmosphere_variable.main argv
         = ([ev_open_local (a2d_0p25_key (strftime_Ymd d) (cycle args)) true
               "/tmp/files";
             ev_open_dataset file "grib2io" column;
             ev_quick_imshow (drawing (levels args) da);
             ev_set_ylim 10 50; ev_set_xlim (-130) (-90);
             ev_savefig (output args); ev_show],
            Returned tt))
  /\ (forall args da',
         plot_halfdegree_data.parse_arguments argv = Returned args ->
         Timestamp (plot_halfdegree_data.date args) = Some d ->
         open_local (a3d_key (strftime_Ymd d) (plot_halfdegree_data.cycle args))
         = inr file ->
         open_dataset file None = Some ds ->
         getitem ds (plot_halfdegree_data.variable args) = Returned da ->
         sel_valueOfFirstFixedSurface da (plot_halfdegree_data.model_level args)
         = Returned da' ->
         quick_imshow (drawing (plot_halfdegree_data.levels args) da') = true ->
         savefig (plot_halfdegree_data.output args) = true ->
         plot_halfdegree_data.main argv
         = ([ev_open_local
               (a3d_key (strftime_Ymd d) (plot_halfdegree_data.cycle args)) true
               "/tmp/files";
             ev_open_dataset file "grib2io" None;
             ev_quick_imshow (drawing (plot_halfdegree_data.levels args) da');
             ev_set_ylim 10 50; ev_set_xlim (-130) (-90);
             ev_savefig (plot_halfdegree_data.output args); ev_show],
            Returned tt)).
Proof.
  intros drawing column surface. subst drawing column surface. cbv beta.
  split; [| split].
  - intros args Hparse Hdate Hopen Hdecode Hget Hdraw Hsave. open_main.
    rewrite Hparse, bind_pure_returned. open_steps. rewrite Hdate.
    cbn [fst snd app]. unfold a2d_0p25_key in Hopen. rewrite Hopen.
    cbn [fst snd app]. rewrite Hdecode. cbn [fst snd app]. rewrite Hget.
    cbn [fst snd app]. rewrite Hdraw, Hsave. reflexivity.
  - intros args Hparse Hdate Hopen Hdecode Hget Hdraw Hsave. open_main.
    rewrite Hparse, bind_pure_returned. open_steps. rewrite Hdate.
    cbn [fst snd app]. unfold a2d_0p25_key in Hopen. rewrite Hopen.
    cbn [fst snd app]. rewrite Hdecode. cbn [fst snd app]. rewrite Hget.
    cbn [fst snd app]. rewrite Hdraw, Hsave. reflexivity.
  - intros args da' Hparse Hdate Hopen Hdecode Hget Hsel Hdraw Hsave. open_main.
    rewrite Hparse, bind_pure_returned. open_steps. rewrite Hdate.
    cbn [fst snd app]. unfold a3d_key in Hopen. rewrite Hopen.
    cbn [fst snd app]. rewrite Hdecode. cbn [fst snd app]. rewrite Hget.
    cbn [fst snd app]. rewrite Hsel. cbn [fst snd app].
    rewrite Hdraw, Hsave. reflexivity.
Qed.

(** X7.  A run calls [monet.savefig] at most once, and only with the
    [output] attribute of the namespace that [parse_arguments] returned; when
    [parse_arguments] returns no namespace, [savefig] is not called.  (Only
    the scripts' own [savefig] call is counted, not what the fetch keeps in
    its cache directory.) *)
Theorem only_the_output_path_is_written (argv : list string) :
  (images_written (calls (plot_sfc_variable.main argv)) = []
   \/ exists args,
       plot_sfc_variable.parse_arguments argv = Returned args
       /\ images_written (calls (plot_sfc_variable.main argv)) = [output args])
  /\ (images_written (calls (plot_entire_atmosphere_variable.main argv)) = []
      \/ exists args,
          plot_entire_atmosphere_variable.parse_arguments argv = Returned args
          /\ images_written (calls (plot_entire_atmosphere_variable.main argv))
             = [output args])
  /\ (images_written (calls (plot_halfdegree_data.main argv)) = []
      \/ exists args,
          plot_halfdegree_data.parse_arguments argv = Returned args
          /\ images_written (calls (plot_halfdegree_data.main argv))
             = [plot_halfdegree_data.output args]).
Proof.
  repeat split; open_main.
  - destruct (plot_sfc_variable.parse_arguments argv) as [args |];
      [rewrite bind_pure_returned | now left].
    open_steps. crack; (now left) || (right; exists args; now split).
  - destruct (plot_entire_atmosphere_variable.parse_arguments argv) as [args |];
      [rewrite bind_pure_returned | now left].
    open_steps. crack; (now left) || (right; exists args; now split).
  - destruct (plot_halfdegree_data.parse_arguments argv) as [args |];
      [rewrite bind_pure_returned | now left].
    open_steps. crack; (now left) || (right; exists args; now split).
Qed.

Lemma filter_single {A} (p : A -> bool) before x after :
  p x = true ->
  (forall y, In y (before ++ after) -> p y = false) ->
  filter p (before ++ x :: after) = [x].
Proof.
  intros Hx Hothers.
  assert (Hnone : forall l, (forall y, In y l -> p y = false) -> filter p l = []).
  { induction l as [| y l IH]; [reflexivity |]. intros Hl. simpl.
    rewrite (Hl y (or_introl eq_refl)). apply IH. intros z Hz. apply Hl. now right. }
  rewrite filter_app. simpl. rewrite Hx.
  rewrite (Hnone before), (Hnone after); [reflexivity | |];
    intros y Hy; apply Hothers, in_or_app; auto.
Qed.

(** X8.  In the half-degree script, when exactly one coordinate value of the
    stack equals [model_level], the array drawn is the field stored at that
    level, and no other. *)
Theorem matching_level_is_drawn (ds : Dataset grid) (variable : string)
  (model_level : Z) (levels : list (number pyfloat)) (output_file : string)
  (before after : list (Q * grid)) (q : Q) (g : grid) :
  getitem ds variable = Returned (Field3D (before ++ (q, g) :: after)) ->
  (inject_Z model_level == q)%Q ->
  (forall q' g', In (q', g') (before ++ after) -> ~ (inject_Z model_level == q')%Q) ->
  rendered_data
    (calls (plot_halfdegree_data.create_plot ds variable model_level levels
              output_file))
  = [Field2D g].
Proof.
  intros Hget Hq Hothers.
  assert (Hsel : sel_valueOfFirstFixedSurface
                   (Field3D (before ++ (q, g) :: after)) model_level
                 = Returned (Field2D g)).
  { unfold sel_valueOfFirstFixedSurface.
    rewrite (filter_single _ before (q, g) after); [reflexivity | |].
    - now apply Qeq_bool_iff.
    - intros [q' g'] Hin. simpl.
      destruct (Qeq_bool (inject_Z model_level) q') eqn:Heq; [| reflexivity].
      exfalso. apply (Hothers q' g' Hin). now apply Qeq_bool_iff. }
  unfold plot_halfdegree_data.create_plot.
  rewrite Hget, bind_pure_returned, Hsel, bind_pure_returned.
  open_steps. crack; reflexivity.
Qed.

End Runs.

(** ** Remote keys *)

Section KeyFacts.

Lemma append_cancel_l (p a b : string) : (p ++ a = p ++ b)%string -> a = b.
Proof.
  induction p as [| c p IH]; simpl; [exact (fun x => x) |].
  intros [= Heq]. now apply IH.
Qed.

Lemma digit_inj a b : digit a = digit b -> a mod 10 = b mod 10.
Proof.
  unfold digit. intros Heq. apply (f_equal nat_of_ascii) in Heq.
  pose proof (Nat.mod_upper_bound a 10 ltac:(discriminate)).
  pose proof (Nat.mod_upper_bound b 10 ltac:(discriminate)).
  rewrite !nat_ascii_embedding in Heq by lia. lia.
Qed.

Lemma last_digit_and_rest a b : a mod 10 = b mod 10 -> a / 10 = b / 10 -> a = b.
Proof.
  intros Hm Hd. rewrite (Nat.div_mod_eq a 10), (Nat.div_mod_eq b 10). congruence.
Qed.

Lemma small_digit a b : a < 10 -> b < 10 -> digit a = digit b -> a = b.
Proof.
  intros Ha Hb Heq. apply digit_inj in Heq.
  now rewrite !Nat.mod_small in Heq by assumption.
Qed.

Lemma eight_digits_inj d1 d2 :
  timestamp_in_bounds d1 -> timestamp_in_bounds d2 ->
  eight_digits d1 = eight_digits d2 -> d1 = d2.
Proof.
  intros (Hy1 & Hm1 & Hd1) (Hy2 & Hm2 & Hd2). unfold eight_digits.
  intros [= Ey3 Ey2 Ey1 Ey0 Em1 Em0 Ed1 Ed0].
  assert (Hdiv : forall n k, n < 10 * k -> n / 10 < k).
  { intros n k Hn. now apply Nat.Div0.div_lt_upper_bound. }
  assert (Hyear : year d1 = year d2).
  { apply last_digit_and_rest; [now apply digit_inj |].
    apply last_digit_and_rest; [now apply digit_inj |].
    rewrite !Nat.Div0.div_div. change (10 * 10) with 100.
    apply last_digit_and_rest; [now apply digit_inj |].
    rewrite !Nat.Div0.div_div. change (100 * 10) with 1000.
    apply small_digit; [| | exact Ey3];
      apply Nat.Div0.div_lt_upper_bound; lia. }
  assert (Hmonth : month d1 = month d2).
  { apply last_digit_and_rest; [now apply digit_inj |].
    apply small_digit; [| | exact Em1]; apply Hdiv; lia. }
  assert (Hday : day d1 = day d2).
  { apply last_digit_and_rest; [now apply digit_inj |].
    apply small_digit; [| | exact Ed1]; apply Hdiv; lia. }
  destruct d1, d2; simpl in *; congruence.
Qed.

Ltac each_cycle Hc :=
  unfold cycle_choices in Hc; cbn [In] in Hc;
  destruct Hc as [<- | [<- | [<- | [<- | []]]]].

(** A key of either template gives back the date and the cycle it was made
    from. *)
Lemma key_inj d1 d2 c1 c2 :
  timestamp_in_bounds d1 -> timestamp_in_bounds d2 ->
  In c1 cycle_choices -> In c2 cycle_choices ->
  a2d_0p25_key (eight_digits d1) c1 = a2d_0p25_key (eight_digits d2) c2
  \/ a3d_key (eight_digits d1) c1 = a3d_key (eight_digits d2) c2 ->
  d1 = d2 /\ c1 = c2.
Proof.
  intros Hb1 Hb2 Hc1 Hc2 Heq.
  assert (Hparts : eight_digits d1 = eight_digits d2 /\ c1 = c2).
  { unfold a2d_0p25_key, a3d_key in Heq.
    destruct Heq as [Heq | Heq]; apply append_cancel_l in Heq;
      unfold eight_digits in *; cbn [append] in Heq;
      each_cycle Hc1; each_cycle Hc2; cbn [append] in Heq;
      first [discriminate Heq
            | injection Heq; intros; split; [congruence | reflexivity]]. }
  destruct Hparts as (Hd & Hc). split; [| exact Hc].
  now apply eight_digits_inj.
Qed.

(** No key of the half-degree template is a key of the quarter-degree
    template. *)
Lemma templates_apart d1 d2 c1 c2 :
  In c1 cycle_choices -> In c2 cycle_choices ->
  a3d_key (eight_digits d1) c1 <> a2d_0p25_key (eight_digits d2) c2.
Proof.
  intros Hc1 Hc2 Heq. unfold a2d_0p25_key, a3d_key in Heq.
  apply append_cancel_l in Heq. unfold eight_digits in Heq.
  cbn [append] in Heq.
  each_cycle Hc1; each_cycle Hc2; cbn [append] in Heq; discriminate Heq.
Qed.

Lemma singleton_inj {A} (a b : A) : [a] = [b] -> a = b.
Proof. intros Heq. now injection Heq. Qed.

End KeyFacts.

Section Keys.
Context `{Externals}.

(** X9.  For the same date string and cycle the surface and the
    entire-atmosphere scripts ask the store for the same object (they differ
    in the decode filter only), while the half-degree script never asks for an
    object of theirs, for any date in range and any valid cycle. *)
Theorem quarter_degree_scripts_share_their_object (date_str cyc var : string) :
  requested_urls (calls (plot_sfc_variable.get_gefs_data date_str cyc var))
  = requested_urls
      (calls (plot_entire_atmosphere_variable.get_gefs_data date_str cyc var))
  /\ (forall date_str' cyc' var' d d',
         Timestamp date_str = Some d -> Timestamp date_str' = Some d' ->
         timestamp_in_bounds d -> timestamp_in_bounds d' ->
         In cyc cycle_choices -> In cyc' cycle_choices ->
         requested_urls
           (calls (plot_halfdegree_data.get_gefs_data date_str' cyc' var'))
         <> requested_urls
              (calls (plot_sfc_variable.get_gefs_data date_str cyc var))).
Proof.
  split.
  - run_fetch; reflexivity.
  - intros date_str' cyc' var' d d' Hd Hd' Hb Hb' Hc Hc'.
    rewrite (halfdegree_requested_url _ _ _ _ Hd'), (sfc_requested_url _ _ _ _ Hd).
    rewrite !strftime_eight_digits by assumption.
    intros Heq%singleton_inj. exact (templates_apart d' d cyc' cyc Hc' Hc Heq).
Qed.

(** X10.  The remote key is a faithful name: two fetches of a script that
    open the same key were asked for the same calendar date and the same
    cycle (dates in range, valid cycles). *)
Theorem remote_key_determines_date_and_cycle
  (s1 s2 c1 c2 v1 v2 : string) (d1 d2 : calendar_date) :
  Timestamp s1 = Some d1 -> Timestamp s2 = Some d2 ->
  timestamp_in_bounds d1 -> timestamp_in_bounds d2 ->
  In c1 cycle_choices -> In c2 cycle_choices ->
  (requested_urls (calls (plot_sfc_variable.get_gefs_data s1 c1 v1))
   = requested_urls (calls (plot_sfc_variable.get_gefs_data s2 c2 v2)) ->
   d1 = d2 /\ c1 = c2)
  /\ (requested_urls
        (calls (plot_entire_atmosphere_variable.get_gefs_data s1 c1 v1))
      = requested_urls
          (calls (plot_entire_atmosphere_variable.get_gefs_data s2 c2 v2)) ->
      d1 = d2 /\ c1 = c2)
  /\ (requested_urls (calls (plot_halfdegree_data.get_gefs_data s1 c1 v1))
      = requested_urls (calls (plot_halfdegree_data.get_gefs_data s2 c2 v2)) ->
      d1 = d2 /\ c1 = c2).
Proof.
  intros Hd1 Hd2 Hb1 Hb2 Hc1 Hc2.
  rewrite !(sfc_requested_url _ _ _ _ Hd1), !(sfc_requested_url _ _ _ _ Hd2).
  rewrite !(entire_atmosphere_requested_url _ _ _ _ Hd1),
    !(entire_atmosphere_requested_url _ _ _ _ Hd2).
  rewrite !(halfdegree_requested_url _ _ _ _ Hd1),
    !(halfdegree_requested_url _ _ _ _ Hd2).
  rewrite !strftime_eight_digits by assumption.
  split; [| split]; intros Heq%singleton_inj; eapply key_inj; eauto.
Qed.

End Keys.

(** ** Command lines *)

Section CommandLines.
Context `{Externals}.

(** X11.  No script takes positional arguments: a command line whose first
    string is empty or does not begin with a dash never yields a namespace
    (the run ends in the parser: a usage error, or the help text when a help
    flag follows), and nothing is fetched. *)
Theorem positional_argument_is_refused (v : string) (rest : list string) :
  v = "" \/ plain v = true ->
  (exists e,
      plot_sfc_variable.parse_arguments (v :: rest) = Raised e
      /\ plot_sfc_variable.main (v :: rest) = ([], Raised e))
  /\ (exists e,
         plot_entire_atmosphere_variable.parse_arguments (v :: rest) = Raised e
         /\ plot_entire_atmosphere_variable.main (v :: rest) = ([], Raised e))
  /\ (exists e,
         plot_halfdegree_data.parse_arguments (v :: rest) = Raised e
         /\ plot_halfdegree_data.main (v :: rest) = ([], Raised e)).
Proof.
  intros Hv. split; [| split].
  - destruct (positional_is_fatal float int plot_sfc_variable.parser v rest
                empty_namespace Hv) as (e & He).
    exists e. split; [exact He |].
    unfold plot_sfc_variable.main, plot_sfc_variable.parse_arguments.
    now rewrite He.
  - destruct (positional_is_fatal float int plot_entire_atmosphere_variable.parser
                v rest empty_namespace Hv) as (e & He).
    exists e. split; [exact He |].
    unfold plot_entire_atmosphere_variable.main,
      plot_entire_atmosphere_variable.parse_arguments.
    now rewrite He.
  - destruct (positional_is_fatal float int plot_halfdegree_data.parser v rest
                plot_halfdegree_data.empty_namespace Hv) as (e & He).
    exists e. split; [exact He |].
    unfold plot_halfdegree_data.main, plot_halfdegree_data.parse_arguments.
    now rewrite He.
Qed.

(** X12.  An option given again at the end of an accepted command line wins:
    [--date], [--variable] or [--output] followed by a plain value, or
    [--cycle] followed by one of the four cycles, replaces that attribute and
    leaves every other attribute of the namespace as it was. *)
Theorem last_occurrence_wins (argv : list string) (v : string) :
  plain v = true ->
  (forall args,
      plot_sfc_variable.parse_arguments argv = Returned args ->
      plot_sfc_variable.parse_arguments (argv ++ ["--date"; v])
      = Returned (set_date v args)
      /\ plot_sfc_variable.parse_arguments (argv ++ ["--variable"; v])
         = Returned (set_variable v args)
      /\ plot_sfc_variable.parse_arguments (argv ++ ["--output"; v])
         = Returned (set_output v args)
      /\ (In v cycle_choices ->
          plot_sfc_variable.parse_arguments (argv ++ ["--cycle"; v])
          = Returned (set_cycle v args)))
  /\ (forall args,
         plot_entire_atmosphere_variable.parse_arguments argv = Returned args ->
         plot_entire_atmosphere_variable.parse_arguments (argv ++ ["--date"; v])
         = Returned (set_date v args)
         /\ plot_entire_atmosphere_variable.parse_arguments
              (argv ++ ["--variable"; v])
            = Returned (set_variable v args)
         /\ plot_entire_atmosphere_variable.parse_arguments
              (argv ++ ["--output"; v])
            = Returned (set_output v args)
         /\ (In v cycle_choices ->
             plot_entire_atmosphere_variable.parse_arguments
               (argv ++ ["--cycle"; v])
             = Returned (set_cycle v args)))
  /\ (forall args,
         plot_halfdegree_data.parse_arguments argv = Returned args ->
         plot_halfdegree_data.parse_arguments (argv ++ ["--date"; v])
         = Returned (plot_halfdegree_data.set_date v args)
         /\ plot_halfdegree_data.parse_arguments (argv ++ ["--variable"; v])
            = Returned (plot_halfdegree_data.set_variable v args)
         /\ plot_halfdegree_data.parse_arguments (argv ++ ["--output"; v])
            = Returned (plot_halfdegree_data.set_output v args)
         /\ (In v cycle_choices ->
             plot_halfdegree_data.parse_arguments (argv ++ ["--cycle"; v])
             = Returned (plot_halfdegree_data.set_cycle v args))).
Proof.
  intros Hv.
  assert (Hmem : In v cycle_choices -> Str.mem v cycle_choices = true).
  { intros Hin. unfold Str.mem. apply existsb_exists. exists v.
    split; [exact Hin | apply String.eqb_refl]. }
  split; [| split]; intros args Hparse; repeat split; try intros Hin;
    unfold plot_sfc_variable.parse_arguments,
      plot_entire_atmosphere_variable.parse_arguments,
      plot_halfdegree_data.parse_arguments in *;
    match goal with
    | |- argparse.parse_args _ _ ?p (_ ++ [String "-" ?tail; _]) ?ns0
         = Returned (?set _ _) =>
        eapply (parse_args_append float int p tail _ _ _ set v argv ns0 args);
        [reflexivity | reflexivity | exact Hv | | exact Hparse];
        first [exact I | now apply Hmem]
    end.
Qed.

End CommandLines.

Section CommandLineValues.
Context `{Externals}.

(** X13.  A value glued to [--date], [--variable] or [--output] with [=] is
    stored as written, whatever its characters (a leading dash, spaces,
    nothing at all), and the other attributes keep their defaults.  (The
    value [--] is left out, see [argparse.store].) *)
Theorem glued_value_is_stored_as_written (v : string) :
  v <> "--" ->
  (plot_sfc_variable.parse_arguments [("--date=" ++ v)%string]
   = Returned (mkNamespace v "12" "sfc_tot_pm25" default_levels "gefs_plot.jpg")
   /\ plot_sfc_variable.parse_arguments [("--variable=" ++ v)%string]
      = Returned (mkNamespace "01-22-2025" "12" v default_levels "gefs_plot.jpg")
   /\ plot_sfc_variable.parse_arguments [("--output=" ++ v)%string]
      = Returned (mkNamespace "01-22-2025" "12" "sfc_tot_pm25" default_levels v))
  /\ (plot_entire_atmosphere_variable.parse_arguments [("--date=" ++ v)%string]
      = Returned (mkNamespace v "12" "totAOD550" default_levels "gefs_plot.jpg")
      /\ plot_entire_atmosphere_variable.parse_arguments
           [("--variable=" ++ v)%string]
         = Returned (mkNamespace "01-22-2025" "12" v default_levels
                       "gefs_plot.jpg")
      /\ plot_entire_atmosphere_variable.parse_arguments
           [("--output=" ++ v)%string]
         = Returned (mkNamespace "01-22-2025" "12" "totAOD550" default_levels v))
  /\ (plot_halfdegree_data.parse_arguments [("--date=" ++ v)%string]
      = Returned (plot_halfdegree_data.mkNamespace v "12" "sfc_tot_pm25"
                    default_levels "gefs_plot.jpg" 1)
      /\ plot_halfdegree_data.parse_arguments [("--variable=" ++ v)%string]
         = Returned (plot_halfdegree_data.mkNamespace "01-22-2025" "12" v
                       default_levels "gefs_plot.jpg" 1)
      /\ plot_halfdegree_data.parse_arguments [("--output=" ++ v)%string]
         = Returned (plot_halfdegree_data.mkNamespace "01-22-2025" "12"
                       "sfc_tot_pm25" default_levels v 1)).
Proof.
  intros Hv%String.eqb_neq.
  repeat split;
    unfold plot_sfc_variable.parse_arguments,
      plot_entire_atmosphere_variable.parse_arguments,
      plot_halfdegree_data.parse_arguments;
    cbv - [argparse.remove_dashdash]; cbn [argparse.remove_dashdash];
    rewrite Hv; reflexivity.
Qed.

(** X14.  [--model_level] takes an integer: given at the end of an accepted
    command line with a plain value that [int] reads, it replaces the model
    level and nothing else; with a value that [int] refuses, the command line
    is refused for that value and nothing is fetched. *)
Theorem model_level_must_be_an_integer (argv : list string) (v : string)
  (args : plot_halfdegree_data.Namespace) :
  plain v = true ->
  plot_halfdegree_data.parse_arguments argv = Returned args ->
  (forall z, int v = Some z ->
             plot_halfdegree_data.parse_arguments (argv ++ ["--model_level"; v])
             = Returned (plot_halfdegree_data.set_model_level z args))
  /\ (int v = None ->
      plot_halfdegree_data.parse_arguments (argv ++ ["--model_level"; v])
      = Raised (InvalidArgument (invalid_value "--model_level" v))
      /\ plot_halfdegree_data.main (argv ++ ["--model_level"; v])
         = ([], Raised (InvalidArgument (invalid_value "--model_level" v)))).
Proof.
  intros Hv Hparse.
  pose proof (parse_args_append_int float int plot_halfdegree_data.parser
                "-model_level" "model_level" 1%Z
                plot_halfdegree_data.set_model_level v argv
                plot_halfdegree_data.empty_namespace args
                eq_refl eq_refl Hv Hparse) as Happ.
  fold (plot_halfdegree_data.parse_arguments (argv ++ ["--model_level"; v]))
    in Happ.
  split.
  - intros z Hz. now rewrite Happ, Hz.
  - intros Hz. rewrite Hz in Happ. split; [exact Happ |].
    unfold plot_halfdegree_data.main. now rewrite Happ.
Qed.

(** X15.  One value of [--levels] that [float] refuses loses the whole
    command line: the error names the first such value, no level is kept and
    nothing is fetched. *)
Theorem unreadable_level_is_refused (good : list string) (fs : list pyfloat)
  (bad : string) (rest : list string) :
  forallb plain (good ++ bad :: rest) = true ->
  Forall2 (fun v f => float v = Some f) good fs ->
  float bad = None ->
  let argv := "--levels" :: good ++ bad :: rest in
  let refused := InvalidArgument (invalid_value "--levels" bad) in
  (plot_sfc_variable.parse_arguments argv = Raised refused
   /\ plot_sfc_variable.main argv = ([], Raised refused))
  /\ (plot_entire_atmosphere_variable.parse_arguments argv = Raised refused
      /\ plot_entire_atmosphere_variable.main argv = ([], Raised refused))
  /\ (plot_halfdegree_data.parse_arguments argv = Raised refused
      /\ plot_halfdegree_data.main argv = ([], Raised refused)).
Proof.
  intros Hplain Hconv Hbad argv refused. subst argv refused.
  split; [| split].
  - assert (Hp := parse_levels_first_bad float int plot_sfc_variable.parser
                    "-levels" "levels" default_levels set_levels good fs bad
                    rest empty_namespace eq_refl eq_refl Hplain Hconv Hbad).
    split; [exact Hp |].
    unfold plot_sfc_variable.main, plot_sfc_variable.parse_arguments.
    now rewrite Hp.
  - assert (Hp := parse_levels_first_bad float int
                    plot_entire_atmosphere_variable.parser
                    "-levels" "levels" default_levels set_levels good fs bad
                    rest empty_namespace eq_refl eq_refl Hplain Hconv Hbad).
    split; [exact Hp |].
    unfold plot_entire_atmosphere_variable.main,
      plot_entire_atmosphere_variable.parse_arguments.
    now rewrite Hp.
  - assert (Hp := parse_levels_first_bad float int plot_halfdegree_data.parser
                    "-levels" "levels" default_levels
                    plot_halfdegree_data.set_levels good fs bad
                    rest plot_halfdegree_data.empty_namespace
                    eq_refl eq_refl Hplain Hconv Hbad).
    split; [exact Hp |].
    unfold plot_halfdegree_data.main, plot_halfdegree_data.parse_arguments.
    now rewrite Hp.
Qed.

(** X16.  The levels of an accepted command line are never empty: they are
    the default list, or a non-empty list of values that all went through
    [float].  (Command lines with a value glued as [=--] are left out, see
    [argparse.store].) *)
Theorem accepted_levels_are_not_empty (argv : list string) :
  Forall (fun a => Str.endswith a "=--" = false) argv ->
  let shape (l : list (number pyfloat)) :=
    l = default_levels \/ exists fs, fs <> [] /\ l = map PyFloat fs in
  (forall args,
      plot_sfc_variable.parse_arguments argv = Returned args ->
      shape (levels args))
  /\ (forall args,
         plot_entire_atmosphere_variable.parse_arguments argv = Returned args ->
         shape (levels args))
  /\ (forall args,
         plot_halfdegree_data.parse_arguments argv = Returned args ->
         shape (plot_halfdegree_data.levels args)).
Proof.
  intros Hglue shape. subst shape. cbv beta.
  assert (Hfloats : forall o xs fs,
             argparse.get_floats float o xs = Returned fs -> xs <> [] -> fs <> []).
  { intros o xs fs Hfs Hne ->. apply get_floats_length in Hfs.
    destruct xs; [contradiction | discriminate]. }
  split; [| split]; intros args Hparse.
  - refine (parse_args_invariant_clean float int plot_sfc_variable.parser
              (fun n => levels n = default_levels
                        \/ exists fs, fs <> [] /\ levels n = map PyFloat fs)
              argv empty_namespace args _ _ Hglue Hparse); [| now left].
    intros a o xs n n' Hin Hclean Hs HP. each_action Hin;
      open_clean_store Hclean Hs; simpl; try exact HP.
    right. eexists. split; [| reflexivity]. eapply Hfloats; eauto. discriminate.
  - refine (parse_args_invariant_clean float int plot_entire_atmosphere_variable.parser
              (fun n => levels n = default_levels
                        \/ exists fs, fs <> [] /\ levels n = map PyFloat fs)
              argv empty_namespace args _ _ Hglue Hparse); [| now left].
    intros a o xs n n' Hin Hclean Hs HP. each_action Hin;
      open_clean_store Hclean Hs; simpl; try exact HP.
    right. eexists. split; [| reflexivity]. eapply Hfloats; eauto. discriminate.
  - refine (parse_args_invariant_clean float int plot_halfdegree_data.parser
              (fun n => plot_halfdegree_data.levels n = default_levels
                        \/ exists fs, fs <> []
                                      /\ plot_halfdegree_data.levels n
                                         = map PyFloat fs)
              argv plot_halfdegree_data.empty_namespace args _ _ Hglue Hparse);
      [| now left].
    intros a o xs n n' Hin Hclean Hs HP. each_action Hin;
      open_clean_store Hclean Hs; simpl; try exact HP.
    right. eexists. split; [| reflexivity]. eapply Hfloats; eauto. discriminate.
Qed.

(** X17.  An option that ends the command line has no value to take: no
    namespace is returned, whatever stands before the option (the run ends in
    the parser: a usage error, or the help text when a help flag stands
    before), and nothing is fetched. *)
Theorem trailing_option_is_refused (pre : list string) (flag : string) :
  In flag ["--date"; "--cycle"; "--variable"; "--levels"; "--output"] ->
  (exists e,
      plot_sfc_variable.parse_arguments (pre ++ [flag]) = Raised e
      /\ plot_sfc_variable.main (pre ++ [flag]) = ([], Raised e))
  /\ (exists e,
         plot_entire_atmosphere_variable.parse_arguments (pre ++ [flag]) = Raised e
         /\ plot_entire_atmosphere_variable.main (pre ++ [flag]) = ([], Raised e))
  /\ (exists e,
         plot_halfdegree_data.parse_arguments (pre ++ [flag]) = Raised e
         /\ plot_halfdegree_data.main (pre ++ [flag]) = ([], Raised e))
  /\ (exists e,
         plot_halfdegree_data.parse_arguments (pre ++ ["--model_level"]) = Raised e
         /\ plot_halfdegree_data.main (pre ++ ["--model_level"]) = ([], Raised e)).
Proof.
  intros Hflag. split; [| split; [| split]].
  - assert (Hp : exists e, plot_sfc_variable.parse_arguments (pre ++ [flag])
                           = Raised e).
    { simpl in Hflag.
      destruct Hflag as [<- | [<- | [<- | [<- | [<- | []]]]]];
        eapply parse_args_trailing_option; reflexivity. }
    destruct Hp as (e & He). exists e. split; [exact He |].
    unfold plot_sfc_variable.main. now rewrite He.
  - assert (Hp : exists e, plot_entire_atmosphere_variable.parse_arguments
                             (pre ++ [flag]) = Raised e).
    { simpl in Hflag.
      destruct Hflag as [<- | [<- | [<- | [<- | [<- | []]]]]];
        eapply parse_args_trailing_option; reflexivity. }
    destruct Hp as (e & He). exists e. split; [exact He |].
    unfold plot_entire_atmosphere_variable.main. now rewrite He.
  - assert (Hp : exists e, plot_halfdegree_data.parse_arguments (pre ++ [flag])
                           = Raised e).
    { simpl in Hflag.
      destruct Hflag as [<- | [<- | [<- | [<- | [<- | []]]]]];
        eapply parse_args_trailing_option; reflexivity. }
    destruct Hp as (e & He). exists e. split; [exact He |].
    unfold plot_halfdegree_data.main. now rewrite He.
  - assert (Hp : exists e, plot_halfdegree_data.parse_arguments
                             (pre ++ ["--model_level"]) = Raised e).
    { eapply parse_args_trailing_option; reflexivity. }
    destruct Hp as (e & He). exists e. split; [exact He |].
    unfold plot_halfdegree_data.main. now rewrite He.
Qed.

End CommandLineValues.

(** ** Concrete runs of the further properties *)

Lemma unreadable_date_stops_before_fetch_witness :
  plot_sfc_variable.main (H := World.externals) ["--date"; "someday"]
  = ([], Raised InvalidDate).
Proof.
  exact (proj1 (unreadable_date_stops_before_fetch (H := World.externals)
                  ["--date"; "someday"])
           (mkNamespace (H := World.externals) "someday" "12" "sfc_tot_pm25"
              default_levels "gefs_plot.jpg")
           eq_refl eq_refl).
Defined.

Lemma fetch_failure_ends_the_run_witness :
  plot_sfc_variable.main
    (H := Faults.externals (Some object_absent) true true true) []
  = ([ev_open_local (H := Faults.externals (Some object_absent) true true true)
        "simplecache::s3://noaa-gefs-pds/gefs.20250122/12/chem/pgrb2ap25/gefs.chem.t12z.a2d_0p25.f018.grib2"
        true "/tmp/files"],
     Raised RemoteNotFound).
Proof.
  exact (proj1 (fetch_failure_ends_the_run
                  (H := Faults.externals (Some object_absent) true true true)
                  [] (mkdate 2025 1 22) object_absent)
           (mkNamespace
              (H := Faults.externals (Some object_absent) true true true)
              "01-22-2025" "12" "sfc_tot_pm25" default_levels "gefs_plot.jpg")
           eq_refl eq_refl eq_refl).
Defined.

Lemma decode_failure_ends_the_run_witness :
  result (plot_entire_atmosphere_variable.main
            (H := Faults.externals None false true true) ["--cycle"; "06"])
  = Raised DecodeError
  /\ List.length
       (calls (plot_entire_atmosphere_variable.main
                 (H := Faults.externals None false true true) ["--cycle"; "06"]))
     = 2.
Proof.
  rewrite (proj1 (proj2 (decode_failure_ends_the_run
                           (H := Faults.externals None false true true)
                           ["--cycle"; "06"] (mkdate 2025 1 22)
                           "simplecache::s3://noaa-gefs-pds/gefs.20250122/06/chem/pgrb2ap25/gefs.chem.t06z.a2d_0p25.f018.grib2"))
             (mkNamespace (H := Faults.externals None false true true)
                "01-22-2025" "06" "totAOD550" default_levels "gefs_plot.jpg")
             eq_refl eq_refl eq_refl eq_refl).
  split; reflexivity.
Defined.

Lemma render_and_save_failures_end_the_run_witness :
  result (plot_sfc_variable.main
            (H := Faults.externals None true false true) [])
  = Raised RenderError
  /\ result (plot_sfc_variable.main
               (H := Faults.externals None true true false) [])
     = Raised SaveError.
Proof.
  split.
  - rewrite (proj1 (proj1 (render_and_save_failures_end_the_run
                             (H := Faults.externals None true false true) []
                             (calls (plot_sfc_variable.get_gefs_data
                                       (H := Faults.externals None true false true)
                                       "01-22-2025" "12" "sfc_tot_pm25"))
                             World.decoded (Field2D 1))
                      (mkNamespace (H := Faults.externals None true false true)
                         "01-22-2025" "12" "sfc_tot_pm25" default_levels
                         "gefs_plot.jpg")
                      eq_refl eq_refl eq_refl)
               eq_refl).
    reflexivity.
  - rewrite (proj2 (proj1 (render_and_save_failures_end_the_run
                             (H := Faults.externals None true true false) []
                             (calls (plot_sfc_variable.get_gefs_data
                                       (H := Faults.externals None true true false)
                                       "01-22-2025" "12" "sfc_tot_pm25"))
                             World.decoded (Field2D 1))
                      (mkNamespace (H := Faults.externals None true true false)
                         "01-22-2025" "12" "sfc_tot_pm25" default_levels
                         "gefs_plot.jpg")
                      eq_refl eq_refl eq_refl)
               eq_refl eq_refl).
    reflexivity.
Defined.

Lemma successful_run_witness :
  result (plot_halfdegree_data.main (H := World.externals)
            ["--variable"; "so4_pm139"; "--model_level"; "5";
             "--output"; "so4.png"])
  = Returned tt
  /\ images_written
       (calls (plot_halfdegree_data.main (H := World.externals)
                 ["--variable"; "so4_pm139"; "--model_level"; "5";
                  "--output"; "so4.png"]))
     = [StrValue "so4.png"].
Proof.
  rewrite (proj2 (proj2 (successful_run (H := World.externals)
                           ["--variable"; "so4_pm139"; "--model_level"; "5";
                            "--output"; "so4.png"]
                           (mkdate 2025 1 22)
                           "simplecache::s3://noaa-gefs-pds/gefs.20250122/12/chem/pgrb2ap5/gefs.chem.t12z.a3d_0p25.f018.grib2"
                           World.decoded
                           (Field3D [(inject_Z 2, 3); (inject_Z 5, 4);
                                     (inject_Z 10, 5)])))
             (plot_halfdegree_data.mkNamespace (H := World.externals)
                "01-22-2025" "12" "so4_pm139" default_levels "so4.png" 5)
             (Field2D 4)
             eq_refl eq_refl eq_refl eq_refl eq_refl eq_refl eq_refl eq_refl).
  split; reflexivity.
Defined.

Lemma matching_level_is_drawn_witness :
  rendered_data
    (calls (plot_halfdegree_data.create_plot (H := World.externals)
              World.decoded "so4_pm139" 5 default_levels "gefs_plot.jpg"))
  = [Field2D 4].
Proof.
  assert (Hothers : forall (q' : Q) (g' : nat),
             In (q', g') ([(inject_Z 2, 3)] ++ [(inject_Z 10, 5)]) ->
             ~ (inject_Z 5 == q')%Q).
  { intros q' g' Hin. simpl in Hin.
    destruct Hin as [[= <- _] | [[= <- _] | []]]; unfold Qeq; simpl; lia. }
  exact (matching_level_is_drawn (H := World.externals) World.decoded
           "so4_pm139" 5 default_levels "gefs_plot.jpg"
           [(inject_Z 2, 3)] [(inject_Z 10, 5)] (inject_Z 5) 4
           eq_refl (Qeq_refl (inject_Z 5)) Hothers).
Defined.

Lemma quarter_degree_scripts_share_their_object_witness :
  requested_urls
    (calls (plot_halfdegree_data.get_gefs_data (H := World.externals)
              "01-22-2025" "12" "so4_pm139"))
  <> requested_urls
       (calls (plot_sfc_variable.get_gefs_data (H := World.externals)
                 "01-22-2025" "12" "sfc_tot_pm25")).
Proof.
  assert (Hb : timestamp_in_bounds (mkdate 2025 1 22)).
  { unfold timestamp_in_bounds. simpl. lia. }
  assert (Hc : In "12" cycle_choices) by (simpl; tauto).
  exact (proj2 (quarter_degree_scripts_share_their_object (H := World.externals)
                  "01-22-2025" "12" "sfc_tot_pm25")
           "01-22-2025" "12" "so4_pm139" (mkdate 2025 1 22) (mkdate 2025 1 22)
           eq_refl eq_refl Hb Hb Hc Hc).
Defined.

Lemma remote_key_determines_date_and_cycle_witness :
  mkdate 2025 1 22 = mkdate 2025 1 22 /\ "18" = "18".
Proof.
  assert (Hb : timestamp_in_bounds (mkdate 2025 1 22)).
  { unfold timestamp_in_bounds. simpl. lia. }
  assert (Hc : In "18" cycle_choices) by (simpl; tauto).
  exact (proj1 (remote_key_determines_date_and_cycle (H := World.externals)
                  "01-22-2025" "2025-01-22" "18" "18" "sfc_du_pm10"
                  "sfc_tot_pm25" (mkdate 2025 1 22) (mkdate 2025 1 22)
                  eq_refl eq_refl Hb Hb Hc Hc)
           eq_refl).
Defined.

Lemma positional_argument_is_refused_witness :
  exists e,
    plot_sfc_variable.parse_arguments (H := World.externals)
      ["map.png"; "--cycle"; "06"] = Raised e
    /\ plot_sfc_variable.main (H := World.externals)
         ["map.png"; "--cycle"; "06"] = ([], Raised e).
Proof.
  exact (proj1 (positional_argument_is_refused (H := World.externals)
                  "map.png" ["--cycle"; "06"] (or_intror eq_refl))).
Defined.

Lemma last_occurrence_wins_witness :
  plot_sfc_variable.parse_arguments (H := World.externals)
    (["--output"; "a.png"; "--levels"; "1"; "2"] ++ ["--output"; "b.png"])
  = Returned (mkNamespace (H := World.externals) "01-22-2025" "12"
                "sfc_tot_pm25" [PyFloat 1; PyFloat 2]%Z "b.png").
Proof.
  exact (proj1 (proj2 (proj2
           (proj1 (last_occurrence_wins (H := World.externals)
                     ["--output"; "a.png"; "--levels"; "1"; "2"] "b.png"
                     eq_refl)
              (mkNamespace (H := World.externals) "01-22-2025" "12"
                 "sfc_tot_pm25" [PyFloat 1; PyFloat 2]%Z "a.png")
              eq_refl)))).
Defined.

Lemma glued_value_is_stored_as_written_witness :
  plot_sfc_variable.parse_arguments (H := World.externals) ["--output=-x y.png"]
  = Returned (mkNamespace (H := World.externals) "01-22-2025" "12"
                "sfc_tot_pm25" default_levels "-x y.png").
Proof.
  assert (Hne : "-x y.png" <> "--") by discriminate.
  exact (proj2 (proj2 (proj1 (glued_value_is_stored_as_written
                                (H := World.externals) "-x y.png" Hne)))).
Defined.

Lemma model_level_must_be_an_integer_witness :
  plot_halfdegree_data.parse_arguments (H := World.externals)
    (["--cycle"; "18"] ++ ["--model_level"; "7"])
  = Returned (plot_halfdegree_data.mkNamespace (H := World.externals)
                "01-22-2025" "18" "sfc_tot_pm25" default_levels "gefs_plot.jpg" 7)
  /\ plot_halfdegree_data.main (H := World.externals)
       (["--cycle"; "18"] ++ ["--model_level"; "top"])
     = ([], Raised (InvalidArgument (invalid_value "--model_level" "top"))).
Proof.
  split.
  - exact (proj1 (model_level_must_be_an_integer (H := World.externals)
                    ["--cycle"; "18"] "7"
                    (plot_halfdegree_data.mkNamespace (H := World.externals)
                       "01-22-2025" "18" "sfc_tot_pm25" default_levels
                       "gefs_plot.jpg" 1)
                    eq_refl eq_refl)
             7%Z eq_refl).
  - exact (proj2 (proj2 (model_level_must_be_an_integer (H := World.externals)
                           ["--cycle"; "18"] "top"
                           (plot_halfdegree_data.mkNamespace
                              (H := World.externals)
                              "01-22-2025" "18" "sfc_tot_pm25" default_levels
                              "gefs_plot.jpg" 1)
                           eq_refl eq_refl)
                    eq_refl)).
Defined.

Lemma unreadable_level_is_refused_witness :
  plot_sfc_variable.main (H := World.externals) ["--levels"; "1"; "two"; "3"]
  = ([], Raised (InvalidArgument (invalid_value "--levels" "two"))).
Proof.
  assert (Hconv : Forall2 (fun v f => World.integer v = Some f) ["1"] [1%Z])
    by (repeat constructor).
  exact (proj2 (proj1 (unreadable_level_is_refused (H := World.externals)
                         ["1"] [1%Z] "two" ["3"] eq_refl Hconv eq_refl))).
Defined.

Lemma accepted_levels_are_not_empty_witness :
  levels (mkNamespace (H := World.externals) "01-22-2025" "12" "sfc_tot_pm25"
            [PyFloat 4; PyFloat 2]%Z "gefs_plot.jpg")
  = default_levels
  \/ exists fs : list Z,
      fs <> []
      /\ levels (mkNamespace (H := World.externals) "01-22-2025" "12"
                   "sfc_tot_pm25" [PyFloat 4; PyFloat 2]%Z "gefs_plot.jpg")
         = map PyFloat fs.
Proof.
  assert (Hglue : Forall (fun a => Str.endswith a "=--" = false)
                    ["--levels"; "4"; "2"])
    by (repeat constructor).
  exact (proj1 (accepted_levels_are_not_empty (H := World.externals)
                  ["--levels"; "4"; "2"] Hglue)
           (mkNamespace (H := World.externals) "01-22-2025" "12" "sfc_tot_pm25"
              [PyFloat 4; PyFloat 2]%Z "gefs_plot.jpg")
           eq_refl).
Defined.

Lemma trailing_option_is_refused_witness :
  exists e,
    plot_sfc_variable.parse_arguments (H := World.externals)
      (["--date"; "01-22-2025"] ++ ["--levels"]) = Raised e
    /\ plot_sfc_variable.main (H := World.externals)
         (["--date"; "01-22-2025"] ++ ["--levels"]) = ([], Raised e).
Proof.
  assert (Hflag : In "--levels"
                    ["--date"; "--cycle"; "--variable"; "--levels"; "--output"])
    by (simpl; tauto).
  exact (proj1 (trailing_option_is_refused (H := World.externals)
                  ["--date"; "01-22-2025"] "--levels" Hflag)).
Defined.
